(** * fashion_recommender_system: the crawler's processors, exporter and spiders

    A shallow embedding of [crawler/processors.py], [crawler/items.py],
    [crawler/item_exporters.py], [crawler/pipelines.py] and the two spiders,
    with the properties of the traversal, normalisation and export rules.

    Conventions.  A Python [str] is a Rocq [string] whose characters are the
    code points below 256; a Python [int] is a [Z]; a [list] is a [list];
    a [dict] whose key order shows in the output is an association list in
    insertion order, the [meta] of a request is a record of its keys, and
    the file store is a [gmap] from paths to contents.  A Python exception
    is a value of [exn] returned through [result]; a generator is the list
    of what it yielded with the way it ended. *)

From Stdlib Require Import ZArith NArith Ascii String List Lia Bool DecimalString.
From stdpp Require Import base option list gmap strings.

Local Open Scope Z_scope.

(** ** Exceptions and fallible computations *)

Inductive exn : Set :=
  | IndexError | KeyError | NameError | TypeError | ValueError | OSError.

Inductive result (A : Type) : Type :=
  | Ok (a : A)
  | Raise (e : exn).
Arguments Ok {A} a.
Arguments Raise {A} e.

Global Instance result_ret : MRet result := fun _ a => Ok a.
Global Instance result_bind : MBind result := fun _ _ f m =>
  match m with Ok a => f a | Raise e => Raise e end.
Global Instance result_fmap : FMap result := fun _ _ f m =>
  match m with Ok a => Ok (f a) | Raise e => Raise e end.

Global Instance exn_eq_dec : EqDecision exn.
Proof. solve_decision. Defined.

(** ** The Python operations the sources use *)

Module Py.

(** [s.lower()] on one character: the ASCII capitals and the capitals of
    the Latin-1 block (all of U+00C0..U+00DE but the multiplication sign)
    move up by 32; every other code point below 256 is its own lower
    case. *)
Definition lower_char (c : ascii) : ascii :=
  let n := N_of_ascii c in
  if ((65 <=? n) && (n <=? 90) ||
      (192 <=? n) && (n <=? 222) && negb (n =? 215))%N
  then ascii_of_N (n + 32) else c.

Fixpoint lower (s : string) : string :=
  match s with
  | EmptyString => EmptyString
  | String c t => String (lower_char c) (lower t)
  end.

(** [s.startswith(p)] *)
Fixpoint startswith (s p : string) {struct p} : bool :=
  match p, s with
  | EmptyString, _ => true
  | String _ _, EmptyString => false
  | String a p', String b s' => if ascii_dec a b then startswith s' p' else false
  end.

(** [needle in hay] on strings: [needle] occurs as a substring. *)
Fixpoint contains (needle hay : string) : bool :=
  startswith hay needle ||
  match hay with
  | EmptyString => false
  | String _ t => contains needle t
  end.

(** The characters of [s], each as a string of length one (what iterating
    over a [str] gives). *)
Fixpoint chars (s : string) : list string :=
  match s with
  | EmptyString => []
  | String c t => String c EmptyString :: chars t
  end.

(** [sep.join(parts)] *)
Fixpoint str_join (sep : string) (parts : list string) : string :=
  match parts with
  | [] => EmptyString
  | [x] => x
  | x :: t => x +:+ sep +:+ str_join sep t
  end.


(** [s[1:]] *)
Definition slice_from_1 (s : string) : string :=
  match s with
  | EmptyString => EmptyString
  | String _ t => t
  end.

Section Lists.
Context {A : Type}.

(** A Python index: negative ones count from the end. *)
Definition norm_index (l : list A) (i : Z) : option nat :=
  let n := Z.of_nat (length l) in
  let j := if i <? 0 then i + n else i in
  if (0 <=? j) && (j <? n) then Some (Z.to_nat j) else None.

(** [l[i]] *)
Definition getitem (l : list A) (i : Z) : result A :=
  match norm_index l i with
  | Some j =>
    match l !! j with
    | Some x => Ok x
    | None => Raise IndexError
    end
  | None => Raise IndexError
  end.

(** [l.pop(i)]: the list is updated in place, so the list after the call
    is returned with the popped element. *)
Definition pop (l : list A) (i : Z) : result (A * list A) :=
  match norm_index l i with
  | Some j =>
    match l !! j with
    | Some x => Ok (x, delete j l)
    | None => Raise IndexError
    end
  | None => Raise IndexError
  end.

(** [l[:-1]] *)
Definition slice_to_minus_1 (l : list A) : list A :=
  take (length l - 1)%nat l.
End Lists.

End Py.

(** Insertion-ordered dictionaries with string keys ([dict] where the order
    of the keys is observable: it decides the text [urlencode] and the JSON
    encoder produce). *)
Module Dict.
Section Dict.
Context {V : Type}.

Fixpoint get (k : string) (d : list (string * V)) : option V :=
  match d with
  | [] => None
  | (k', v) :: t => if decide (k = k') then Some v else get k t
  end.

(** [d[k] = v]: an existing key keeps its place. *)
Fixpoint setitem (k : string) (v : V) (d : list (string * V)) : list (string * V) :=
  match d with
  | [] => [(k, v)]
  | (k', v') :: t =>
    if decide (k = k') then (k, v) :: t else (k', v') :: setitem k v t
  end.

(** [d.update(other)] *)
Definition update (d other : list (string * V)) : list (string * V) :=
  foldl (fun acc kv => setitem kv.1 kv.2 acc) d other.
End Dict.
End Dict.

(** ** [os.path] and the files the exporter touches (POSIX) *)

Module OsPath.

Definition sep : ascii := "/"%char.

(** [os.linesep] *)
Definition linesep : string := String "010"%char EmptyString.

Fixpoint endswith_sep (s : string) : bool :=
  match s with
  | EmptyString => false
  | String c EmptyString => bool_decide (c = sep)
  | String _ t => endswith_sep t
  end.

(** One round of the loop of [posixpath.join]: a component that starts
    with the separator replaces what was joined so far; otherwise it is
    appended, after a separator unless the path is empty or already ends
    with one. *)
Definition join2 (path b : string) : string :=
  if Py.startswith b "/" then b
  else if bool_decide (path = "") || endswith_sep path then path +:+ b
  else path +:+ "/" +:+ b.

(** [os.path.join(a, *p)] *)
Definition join (a : string) (p : list string) : string := foldl join2 a p.

(** [os.path.join] applied to an unpacked list: without a first
    argument the call is a [TypeError]. *)
Definition join_star (args : list string) : result string :=
  match args with
  | [] => Raise TypeError
  | a :: p => Ok (join a p)
  end.

(** [p[:p.rfind("/") + 1]] *)
Fixpoint head_upto_last_sep (p : string) : string :=
  match p with
  | EmptyString => EmptyString
  | String c t =>
      if Py.contains "/" t then String c (head_upto_last_sep t)
      else if bool_decide (c = sep) then "/" else EmptyString
  end.

(** [s.rstrip("/")] *)
Fixpoint rstrip_sep (s : string) : string :=
  match s with
  | EmptyString => EmptyString
  | String c t =>
      match rstrip_sep t with
      | EmptyString => if bool_decide (c = sep) then EmptyString else String c EmptyString
      | t' => String c t'
      end
  end.

(** [os.path.dirname(p)]: the head up to the last separator, without its
    trailing separators unless it consists of separators only. *)
Definition dirname (p : string) : string :=
  let head := head_upto_last_sep p in
  match rstrip_sep head with
  | EmptyString => head
  | stripped => stripped
  end.

(** The prefixes of [p] that end just before a separator, and [p] itself:
    the directories [os.makedirs(p)] makes sure exist. *)
Fixpoint prefixes_at_sep (acc p : string) : list string :=
  match p with
  | EmptyString => [acc]
  | String c t =>
      (if bool_decide (c = sep) then [acc] else []) ++
      prefixes_at_sep (acc +:+ String c EmptyString) t
  end.

Definition ancestors (p : string) : list string :=
  filter (fun d => d ≠ "") (prefixes_at_sep "" p).

End OsPath.

(** The file store: the directories that exist and the content of every
    regular file, both addressed by the path string as the program wrote it
    (no symbolic links, no [.] or [..], no permissions). *)
Record filesystem : Type := Filesystem {
  dirs : gset string;
  files : gmap string string
}.

Module Os.

(** [os.path.exists(path)] *)
Definition path_exists (fs : filesystem) (path : string) : bool :=
  bool_decide (path ∈ dirs fs) || bool_decide (is_Some (files fs !! path)).

(** [os.makedirs(path)]: creates [path] and the missing directories above
    it; fails when [path] exists or a regular file is in the way. *)
Definition makedirs (fs : filesystem) (path : string) : result filesystem :=
  if path_exists fs path then Raise OSError
  else if bool_decide (Exists (fun d => is_Some (files fs !! d)) (OsPath.ancestors path))
  then Raise OSError
  else Ok (Filesystem (dirs fs ∪ list_to_set (OsPath.ancestors path)) (files fs)).

(** [open(path, 'a+b').write(data)]: the file is created when absent, and
    [data] goes to its end.  The directory of [path] must exist and
    [path] must not be a directory. *)
Definition open_append_write (fs : filesystem) (path data : string) : result filesystem :=
  let parent := OsPath.dirname path in
  if bool_decide (path ∈ dirs fs) then Raise OSError
  else if bool_decide (parent = "") || bool_decide (parent ∈ dirs fs)
  then Ok (Filesystem (dirs fs)
             (<[path := default "" (files fs !! path) +:+ data]> (files fs)))
  else Raise OSError.

End Os.

(** ** The JSON text of an item

    [ScrapyJSONEncoder()] is built without options, so it is the standard
    encoder with [ensure_ascii] on and the separators [", "] and [": "].
    The values of an item are strings and lists of strings. *)

Inductive field_value : Type :=
  | FStr (s : string)
  | FList (l : list string).

Module Json.

Definition quote : ascii := "034"%char.
Definition backslash : ascii := "092"%char.

(** One lower-case hexadecimal digit. *)
Definition hex_digit (n : N) : ascii :=
  if (n <? 10)%N then ascii_of_N (48 + n) else ascii_of_N (87 + n).

(** The six-character escape of a code point below 256. *)
Definition u_escape (n : N) : string :=
  String backslash
    (String "u" (String "0" (String "0"
      (String (hex_digit (n / 16)) (String (hex_digit (n mod 16)) EmptyString))))).

(** What [py_encode_basestring_ascii] writes for one character. *)
Definition escape_char (c : ascii) : string :=
  let n := N_of_ascii c in
  if bool_decide (c = quote) then String backslash (String quote EmptyString)
  else if bool_decide (c = backslash) then String backslash (String backslash EmptyString)
  else if (n =? 10)%N then String backslash "n"
  else if (n =? 13)%N then String backslash "r"
  else if (n =? 9)%N then String backslash "t"
  else if (n =? 8)%N then String backslash "b"
  else if (n =? 12)%N then String backslash "f"
  else if ((n <? 32) || (126 <? n))%N then u_escape n
  else String c EmptyString.

Fixpoint escape (s : string) : string :=
  match s with
  | EmptyString => EmptyString
  | String c t => escape_char c +:+ escape t
  end.

Definition encode_str (s : string) : string :=
  String quote (escape s +:+ String quote EmptyString).

Definition encode_value (v : field_value) : string :=
  match v with
  | FStr s => encode_str s
  | FList l => "[" +:+ Py.str_join ", " (map encode_str l) +:+ "]"
  end.

(** [ScrapyJSONEncoder().encode(item_dict)] *)
Definition encode (item_dict : list (string * field_value)) : string :=
  "{" +:+
  Py.str_join ", "
    (map (fun kv => encode_str kv.1 +:+ ": " +:+ encode_value kv.2) item_dict)
  +:+ "}".

End Json.

(** ** The framework: requests, responses, generators, loaders *)

(** A scraped item: the fields that were set, in the order they were set. *)
Definition Item : Type := list (string * field_value).

(** The callbacks of a spider. *)
Inductive callback : Set := parse_cb | parse_article_cb | parse_item_cb.

Global Instance callback_eq_dec : EqDecision callback.
Proof. solve_decision. Defined.

(** [request.meta] / [response.meta]: the keys the spiders store, each with
    the type they store under it; [None] is an absent key. *)
Record Meta : Type := mkMeta {
  meta_page : option Z;
  meta_article_type : option (list string);
  meta_product_url : option string;
  meta_item : option string
}.

Definition empty_meta : Meta := mkMeta None None None None.

(** [scrapy.Request(url, callback=..., meta=...)].  Building a request is
    total here.  (Scrapy refuses a URL without a scheme; the URLs the
    Nordstrom spider passes come out of [urljoin] and [urlunparse] over the
    URL of a response and keep its scheme, and in the asos spider the
    [meta] argument raises before the call is made.) *)
Module Request.
Record t : Type := make { url : string; callback : callback; meta : Meta }.

Definition set_page (r : t) (n : Z) : t :=
  make (url r) (callback r)
    (mkMeta (Some n) (meta_article_type (meta r)) (meta_product_url (meta r))
       (meta_item (meta r))).

Definition set_article_type (r : t) (a : list string) : t :=
  make (url r) (callback r)
    (mkMeta (meta_page (meta r)) (Some a) (meta_product_url (meta r))
       (meta_item (meta r))).

Definition set_product_url (r : t) (u : string) : t :=
  make (url r) (callback r)
    (mkMeta (meta_page (meta r)) (meta_article_type (meta r)) (Some u)
       (meta_item (meta r))).
End Request.

(** A response is the page as the selector service sees it: the URL, the
    meta of the request it answers, and the matches of every locator. *)
Module Response.
Record t : Type := make {
  url : string;
  meta : Meta;
  css : string → list string;
  xpath_re_first : string → string → option string
}.
End Response.

(** [d[key]] on a meta dictionary. *)
Definition meta_getitem {A} (field : Meta → option A) (m : Meta) : result A :=
  match field m with
  | Some v => Ok v
  | None => Raise KeyError
  end.

(** A callback yields requests and items. *)
Inductive output : Type :=
  | OutRequest (r : Request.t)
  | OutItem (i : Item).

(** A generator run to its end: what it yielded, in order, and how it
    ended (a value, or the exception that stopped it). *)
Definition gen (A : Type) : Type := (list output * result A)%type.

Global Instance gen_ret : MRet gen := fun _ a => ([], Ok a).
Global Instance gen_bind : MBind gen := fun _ _ f m =>
  match m with
  | (ys, Ok a) => let '(zs, r) := f a in (ys ++ zs, r)
  | (ys, Raise e) => (ys, Raise e)
  end.

Definition yield (o : output) : gen unit := ([o], Ok tt).
Definition lift {A} (r : result A) : gen A := ([], r).

(** [for x in l: body] *)
Fixpoint for_each {X} (l : list X) (body : X → gen unit) : gen unit :=
  match l with
  | [] => mret tt
  | x :: t => body x ;; for_each t body
  end.

Definition yielded {A} (g : gen A) : list output := g.1.
Definition outcome {A} (g : gen A) : result A := g.2.

(** ** [crawler/processors.py] *)

Module RemoveSaleHome.

(** [RemoveSaleHome.__call__(self, values)].  The list [values] is
    mutated by [pop] and returned; the embedding threads it. *)
Definition __call__ (values : list string) : result (list string) :=
  v1 ← Py.getitem values 1;
  values ← (if Py.contains "sale" (Py.lower v1)
            then snd <$> Py.pop values 1 else Ok values);
  v0 ← Py.getitem values 0;
  values ← (if Py.contains "home" (Py.lower v0)
            then snd <$> Py.pop values 0 else Ok values);
  Ok values.

End RemoveSaleHome.

(** The two tests of the cleanup, on one label. *)
Definition has_sale (s : string) : bool := Py.contains "sale" (Py.lower s).
Definition has_home (s : string) : bool := Py.contains "home" (Py.lower s).

(** The currency symbols among the code points below 256: the dollar sign,
    and the cent, pound, currency and yen signs. *)
Definition is_currency_symbol (c : ascii) : bool :=
  let n := N_of_ascii c in ((n =? 36) || (162 <=? n) && (n <=? 165))%N.

(** The transform of the price field in the words of the specification:
    a leading currency symbol is removed and nothing else. *)
Definition strip_leading_currency (s : string) : string :=
  match s with
  | String c t => if is_currency_symbol c then t else s
  | EmptyString => EmptyString
  end.

(** ** The processors of [scrapy.loader.processors] that [items.py] uses *)

(** [TakeFirst()(values)]: the first value that is neither [None] nor the
    empty string; [None] when there is none. *)
Fixpoint TakeFirst (values : list string) : option string :=
  match values with
  | [] => None
  | value :: rest =>
      if bool_decide (value ≠ "") then Some value else TakeFirst rest
  end.

(** [MapCompose( *functions)(values)]: each function in turn is applied to
    every value, and the results are collected in order (a string result
    counts as one value). *)
Definition MapCompose (functions : list (string → string)) (values : list string)
  : list string :=
  foldl (fun values func => values ≫= (fun v => [func v])) values functions.

(** A field's output processor: from the collected values to the value the
    item gets ([None]: the field is not set), or an exception. *)
Definition processor : Type := list string → result (option field_value).

(** The default output processor, [Identity()]. *)
Definition Identity : processor := fun values => Ok (Some (FList values)).

(** ** [crawler/items.py] *)

Section Items.
(** [w3lib.url.url_query_cleaner] with its default arguments. *)
Variable url_query_cleaner : string → string.

Definition price_output_processor : list string → list string :=
  MapCompose [fun x => Py.slice_from_1 x].

Definition image_urls_output_processor : list string → list string :=
  MapCompose [fun x => url_query_cleaner x].

(** The fields of [NordstromItem], each with its [output_processor]. *)
Definition NordstromItem : list (string * processor) :=
  [ ("article_type", fun values => Some ∘ FList <$> RemoveSaleHome.__call__ values);
    ("product_name", fun values => Ok (FStr <$> TakeFirst values));
    ("product_url", fun values => Ok (FStr <$> TakeFirst values));
    ("brand_name", fun values => Ok (FStr <$> TakeFirst values));
    ("price", fun values => Ok (Some (FList (price_output_processor values))));
    ("fit", Identity);
    ("width", Identity);
    ("colors", Identity);
    ("size_info", Identity);
    ("details_and_care_info", Identity);
    ("details_and_care_list", Identity);
    ("image_urls",
       fun values => Ok (Some (FList (image_urls_output_processor values))));
    ("images", Identity) ].
End Items.

(** ** [scrapy.loader.ItemLoader] over an item class *)

Module ItemLoader.
Section Loader.
(** The declared fields of the item class being loaded. *)
Variable fields : list (string * processor).

(** [loader._values]: the values collected per field. *)
Definition t : Type := list (string * list string).

Definition empty : t := [].

(** [loader.add_value(field_name, value)] with [value] already turned
    into a list ([None] is the empty list, a string a singleton).  The
    field must be declared; nothing is stored for an empty list. *)
Definition add_value (loader : t) (field_name : string) (value : list string)
  : result t :=
  match Dict.get field_name fields with
  | None => Raise KeyError
  | Some _ =>
    match value with
    | [] => Ok loader
    | _ => Ok (Dict.setitem field_name
                 (default [] (Dict.get field_name loader) ++ value) loader)
    end
  end.

(** [loader.add_css(field_name, css)] *)
Definition add_css (loader : t) (response : Response.t) (field_name css : string)
  : result t :=
  add_value loader field_name (Response.css response css).

(** [loader.get_output_value(field_name)]: an exception of the output
    processor comes out as a [ValueError]. *)
Definition get_output_value (field_name : string) (values : list string)
  : result (option field_value) :=
  match Dict.get field_name fields with
  | None => Raise KeyError
  | Some proc =>
    match proc values with
    | Ok v => Ok v
    | Raise _ => Raise ValueError
    end
  end.

(** [loader.load_item()]: every field with collected values gets the
    value of its output processor, unless that is [None]. *)
Fixpoint load_fields (values : t) (item : Item) : result Item :=
  match values with
  | [] => Ok item
  | (field_name, vs) :: rest =>
    value ← get_output_value field_name vs;
    load_fields rest
      (match value with
       | Some v => Dict.setitem field_name v item
       | None => item
       end)
  end.

Definition load_item (loader : t) : result Item := load_fields loader [].
End Loader.
End ItemLoader.

(** ** [crawler/item_exporters.py] and [crawler/pipelines.py] *)

Module JsonLinesItemSplitFileExporter.

(** Lines 58-63 of [export_item]: the directory [path] and the file
    [item_path] of an item, from the spider's name and the item's
    [article_type]. *)
Definition partition (spider_name : string) (article_type : list string)
  : result (string * string) :=
  if bool_decide (length article_type = 1%nat) then
    let path := OsPath.join "scraped_data" [spider_name] in
    first ← Py.getitem article_type 0;
    Ok (path, OsPath.join path [first] +:+ ".jl")
  else
    sub ← OsPath.join_star (Py.slice_to_minus_1 article_type);
    let path := OsPath.join (OsPath.join "scraped_data" [spider_name]) [sub] in
    last ← Py.getitem article_type (-1);
    Ok (path, OsPath.join path [last] +:+ ".jl").

(** [item['article_type']] as the sequence [len], indexing, slicing and
    unpacking see: a list is itself, a string is the sequence of its
    characters. *)
Definition article_type_of (item : Item) : result (list string) :=
  match Dict.get "article_type" item with
  | Some (FList l) => Ok l
  | Some (FStr s) => Ok (Py.chars s)
  | None => Raise KeyError
  end.

(** The line [export_item] writes for an item.  (The pipeline builds the
    exporter without options, so the text is encoded as UTF-8; being
    ASCII, it is written character by character.) *)
Definition data_of (item : Item) : string := Json.encode item +:+ OsPath.linesep.

(** [export_item(self, spider, item)] on the file store. *)
Definition export_item (spider_name : string) (item : Item) (fs : filesystem)
  : result filesystem :=
  let data := data_of item in
  article_type ← article_type_of item;
  '(path, item_path) ← partition spider_name article_type;
  fs ← (if negb (Os.path_exists fs path) then Os.makedirs fs path else Ok fs);
  Os.open_append_write fs item_path data.

End JsonLinesItemSplitFileExporter.

Module FashionSiteExportPipeline.


End FashionSiteExportPipeline.

(** ** The libraries the spiders call *)

Module Url.
(** The six components [urlparse] returns; the query is component 4. *)
Record parts : Type := make {
  scheme : string; netloc : string; path : string;
  params : string; query : string; fragment : string
}.

(** [url_parts[4] = q] *)
Definition set_query (p : parts) (q : string) : parts :=
  make (scheme p) (netloc p) (path p) (params p) q (fragment p).
End Url.

(** A value of the query dictionary: the list [parse_qs] gives, or an
    integer put there by [update]. *)
Inductive qvalue : Type :=
  | QList (l : list string)
  | QInt (z : Z).

(** [urllib.parse] and [w3lib.url]: functions of their arguments. *)
Class Urllib : Type := {
  urljoin : string → string → string;
  urlparse : string → Url.parts;
  urlunparse : Url.parts → string;
  parse_qs : string → list (string * list string);
  urlencode : list (string * qvalue) → string;
  url_query_cleaner : string → string
}.

(** A spider: its name, where it starts, and its callbacks. *)
Record Spider : Type := mkSpider {
  name : string;
  start_urls : list string;
  dispatch : callback → Response.t → gen unit
}.

(** ** [crawler/spiders/nordstrom.py] *)

Module NordstromSpider.
Section WithUrllib.
Context `{Urllib}.

Definition name : string := "nordstrom".
Definition start_urls : list string := ["http://shop.nordstrom.com/?origin=tab-logo"].

(** [dict(parse_qs(url_parts[4]))] *)
Definition query_of (url_parts : Url.parts) : list (string * qvalue) :=
  Dict.update [] (map (fun kv => (kv.1, QList kv.2)) (parse_qs (Url.query url_parts))).

Definition parse (response : Response.t) : gen unit :=
  for_each (Response.css response "li a::attr(href)") (fun product_page =>
    let url_parts := urlparse (urljoin (Response.url response) product_page) in
    let query := query_of url_parts in
    let query := Dict.update query [("top", QInt 4); ("page", QInt 1)] in
    let url_parts := Url.set_query url_parts (urlencode query) in
    let request := Request.make (urlunparse url_parts) parse_article_cb empty_meta in
    let request := Request.set_page request 1 in
    yield (OutRequest request)).

Definition parse_article (response : Response.t) : gen unit :=
  let article_type := Response.css response "li a span[itemprop=name]::text" in
  if bool_decide (article_type ≠ []) then
    let articles := Response.css response ".product-photo-href::attr(href)" in
    let end_of_articles := false in
    end_of_articles ←
      (if bool_decide (articles ≠ []) then
         for_each articles (fun article =>
           let next_page := urljoin (Response.url response) article in
           let request := Request.make next_page parse_item_cb empty_meta in
           let request := Request.set_article_type request article_type in
           yield (OutRequest request));;
         mret end_of_articles
       else mret true);
    if negb end_of_articles then
      let url_parts := urlparse (Response.url response) in
      let query := query_of url_parts in
      page ← lift (meta_getitem meta_page (Response.meta response));
      let next_page_num := page + 1 in
      let query := Dict.update query [("top", QInt 4); ("page", QInt next_page_num)] in
      let url_parts := Url.set_query url_parts (urlencode query) in
      let request := Request.make (urlunparse url_parts) parse_article_cb empty_meta in
      let request := Request.set_page request next_page_num in
      yield (OutRequest request)
    else mret tt
  else mret tt.

Definition parse_item (response : Response.t) : gen unit :=
  let fields := NordstromItem url_query_cleaner in
  let loader := ItemLoader.empty in
  article_type ← lift (meta_getitem meta_article_type (Response.meta response));
  loader ← lift (ItemLoader.add_value fields loader "article_type" article_type);
  loader ← lift (ItemLoader.add_css fields loader response "product_name"
                 "section[class=np-product-title] h1::text");
  loader ← lift (ItemLoader.add_value fields loader "product_url" [Response.url response]);
  loader ← lift (ItemLoader.add_css fields loader response "brand_name"
                 "section[class=brand-title] h2 a span::text");
  loader ← lift (ItemLoader.add_css fields loader response "price"
                 "div[class=current-price]::text");
  loader ← lift (ItemLoader.add_css fields loader response "fit"
                 "section.size-filter div[class=drop-down-options] div[class=option-main-text]::text");
  loader ← lift (ItemLoader.add_css fields loader response "width"
                 "section.width-filter div[class=drop-down-options] div[class=option-main-text]::text");
  loader ← lift (ItemLoader.add_css fields loader response "colors"
                 "section.color-filter div[class=color-option-text] div[class=option-main-text]::text");
  loader ← lift (ItemLoader.add_css fields loader response "size_info"
                 "div.extended-product-details div.np-size-info span::text");
  loader ← lift (ItemLoader.add_css fields loader response "details_and_care_info"
                 "div.product-details-and-care div.item-description-body p::text");
  loader ← lift (ItemLoader.add_css fields loader response "details_and_care_list"
                 "div.product-details-and-care ul li::text");
  loader ← lift (ItemLoader.add_css fields loader response "image_urls"
                 "li.image-thumbnail img::attr(src)");
  loader ← lift (ItemLoader.add_value fields loader "images" []);
  item ← lift (ItemLoader.load_item fields loader);
  yield (OutItem item).

Definition spider : Spider :=
  mkSpider name start_urls
    (fun cb => match cb with
               | parse_cb => parse
               | parse_article_cb => parse_article
               | parse_item_cb => parse_item
               end).
End WithUrllib.
End NordstromSpider.

(** ** [crawler/spiders/asos.py] *)

(** A value [json.loads] builds. *)
Local Unset Elimination Schemes.
Inductive json : Type :=
  | JNull
  | JBool (b : bool)
  | JNumber (literal : string)
  | JString (s : string)
  | JArray (l : list json)
  | JObject (d : list (string * json)).
Local Set Elimination Schemes.

Module PyJson.
(** [j[key]] with a string key: a [dict] looks the key up, a [list] or a
    [str] refuses a string index, anything else has no subscript. *)
Definition getitem_str (j : json) (key : string) : result json :=
  match j with
  | JObject d =>
      match Dict.get key d with
      | Some v => Ok v
      | None => Raise KeyError
      end
  | _ => Raise TypeError
  end.

(** [for x in j]: the elements of a list, the keys of a dict, the
    characters of a string. *)
Definition iter (j : json) : result (list json) :=
  match j with
  | JArray l => Ok l
  | JObject d => Ok (map (fun kv => JString kv.1) d)
  | JString s => Ok (map JString (Py.chars s))
  | _ => Raise TypeError
  end.
End PyJson.

(** [re], [json] and the item loader over [AsosItem].  The class
    [AsosItem] is imported from [items.py], which does not define it: the
    loader over it is a parameter. *)
Class AsosEnv : Type := {
  re_sub : string → string → string → string;
  json_loads : string → result json;
  asos_loader : Type;
  asos_new_loader : Response.t → asos_loader;
  asos_add_css : asos_loader → string → string → result asos_loader;
  asos_add_value : asos_loader → string → json → result asos_loader;
  asos_load_item : asos_loader → result Item
}.

Module AsosSpider.

Definition name : string := "asos".
Definition start_urls : list string := ["http://us.asos.com/"].

(** The names bound at the top level of [asos.py]: its imports and its
    class, and the names every module has. *)
Definition module_globals : list string :=
  [ "scrapy"; "json"; "logging"; "os"; "re"; "url_query_cleaner";
    "RotatingFileHandler"; "ItemLoader"; "AsosItem"; "AsosSpider";
    "__name__"; "__doc__"; "__package__"; "__loader__"; "__spec__";
    "__file__"; "__cached__"; "__builtins__" ].

(** The names of the [builtins] module (Python 3). *)
Definition builtins : list string :=
  [ "abs"; "aiter"; "all"; "anext"; "any"; "ascii"; "bin"; "bool"; "breakpoint"; "bytearray";
    "bytes"; "callable"; "chr"; "classmethod"; "compile"; "complex";
    "copyright"; "credits"; "delattr"; "dict"; "dir"; "divmod"; "enumerate";
    "eval"; "exec"; "exit"; "filter"; "float"; "format"; "frozenset";
    "getattr"; "globals"; "hasattr"; "hash"; "help"; "hex"; "id"; "input";
    "int"; "isinstance"; "issubclass"; "iter"; "len"; "license"; "list";
    "locals"; "map"; "max"; "memoryview"; "min"; "next"; "object"; "oct";
    "open"; "ord"; "pow"; "print"; "property"; "quit"; "range"; "repr";
    "reversed"; "round"; "set"; "setattr"; "slice"; "sorted";
    "staticmethod"; "str"; "sum"; "super"; "tuple"; "type"; "vars"; "zip";
    "__import__"; "__build_class__"; "__debug__";
    "None"; "True"; "False"; "Ellipsis"; "NotImplemented";
    "BaseException"; "BaseExceptionGroup"; "Exception"; "ExceptionGroup";
    "EncodingWarning"; "WindowsError"; "ArithmeticError"; "AssertionError";
    "AttributeError"; "BlockingIOError"; "BrokenPipeError"; "BufferError";
    "BytesWarning"; "ChildProcessError"; "ConnectionAbortedError";
    "ConnectionError"; "ConnectionRefusedError"; "ConnectionResetError";
    "DeprecationWarning"; "EOFError"; "EnvironmentError";
    "FileExistsError"; "FileNotFoundError"; "FloatingPointError";
    "FutureWarning"; "GeneratorExit"; "IOError"; "ImportError";
    "ImportWarning"; "IndentationError"; "IndexError";
    "InterruptedError"; "IsADirectoryError"; "KeyError";
    "KeyboardInterrupt"; "LookupError"; "MemoryError";
    "ModuleNotFoundError"; "NameError"; "NotADirectoryError";
    "NotImplementedError"; "OSError"; "OverflowError";
    "PendingDeprecationWarning"; "PermissionError"; "ProcessLookupError";
    "RecursionError"; "ReferenceError"; "ResourceWarning"; "RuntimeError";
    "RuntimeWarning"; "StopAsyncIteration"; "StopIteration"; "SyntaxError";
    "SyntaxWarning"; "SystemError"; "SystemExit"; "TabError";
    "TimeoutError"; "TypeError"; "UnboundLocalError"; "UnicodeDecodeError";
    "UnicodeEncodeError"; "UnicodeError"; "UnicodeTranslateError";
    "UnicodeWarning"; "UserWarning"; "ValueError"; "Warning";
    "ZeroDivisionError" ].

(** Reading a name that the function never assigns: the module's globals,
    then the builtins, else [NameError].  The value read is named by the
    name it was found under. *)
Definition load_global (x : string) : result string :=
  if bool_decide (x ∈ module_globals) || bool_decide (x ∈ builtins)
  then Ok x else Raise NameError.

Definition dquote : string := String Json.quote EmptyString.

(** The locator of the script that holds the product data. *)
Definition full_product_script : string :=
  "//script[contains(., " +:+ dquote +:+ "Pages/FullProduct" +:+ dquote +:+ ")]/text()".

Section WithEnv.
Context `{AsosEnv}.

Definition parse (response : Response.t) : gen unit :=
  for_each (Response.css response "div[class=sub-floor-menu] li a::attr(href)")
    (fun article =>
       item ← lift (load_global "item");
       let request :=
         Request.make article parse_article_cb (mkMeta None None None (Some item)) in
       yield (OutRequest request)).

Definition parse_article (response : Response.t) : gen unit :=
  for_each (Response.css response "a.product.product-link::attr(href)")
    (fun product_url =>
       item ← lift (load_global "item");
       let request :=
         Request.make product_url parse_item_cb (mkMeta None None None (Some item)) in
       let request := Request.set_product_url request product_url in
       yield (OutRequest request)).

(** [size_list.append(variant['size'])] for every variant. *)
Fixpoint sizes_of (variants : list json) (size_list : list json)
  : result (list json) :=
  match variants with
  | [] => Ok size_list
  | variant :: rest =>
    size ← PyJson.getitem_str variant "size";
    sizes_of rest (size_list ++ [size])
  end.

Definition parse_item (response : Response.t) : gen unit :=
  let data :=
    Response.xpath_re_first response full_product_script "view\('(\{.*\})'," in
  match data with
  | None | Some EmptyString => mret tt
  | Some data =>
    let data_cleaned :=
      re_sub ("[\\]+" +:+ dquote) (String Json.backslash dquote) data in
    let data_cleaned := re_sub "[\\]+'" "'" data_cleaned in
    data_json ← lift (json_loads data_cleaned);
    variants ← lift (PyJson.getitem_str data_json "variants" ≫= PyJson.iter);
    size_list ← lift (sizes_of variants []);
    let loader := asos_new_loader response in
    loader ← lift (asos_add_css loader "article_type"
                     "div.asos-product div.bread-crumb ul li a::text");
    loader ← lift (asos_add_css loader "product_name" "h1::text");
    loader ← lift (asos_add_value loader "product_url" (JString (Response.url response)));
    loader ← lift (asos_add_css loader "brand_name"
                     "div.product-description span a strong::text");
    price ← lift (PyJson.getitem_str data_json "price" ≫=
                  fun p => PyJson.getitem_str p "current");
    loader ← lift (asos_add_value loader "price" price);
    loader ← lift (asos_add_value loader "fit" (JArray size_list));
    colours ← lift (PyJson.getitem_str data_json "variants" ≫=
                    fun v => PyJson.getitem_str v "colour");
    loader ← lift (asos_add_value loader "colors" colours);
    loader ← lift (asos_add_css loader "details_and_care_info" "div.about-me span::text");
    loader ← lift (asos_add_css loader "details_and_care_list" "div.care-info span::text");
    loader ← lift (asos_add_css loader "image_urls" "li aa img::attr(src)");
    loader ← lift (asos_add_value loader "images" JNull);
    loader ← lift (asos_add_value loader "spider_name" (JString name));
    item ← lift (asos_load_item loader);
    yield (OutItem item)
  end.

Definition spider : Spider :=
  mkSpider name start_urls
    (fun cb => match cb with
               | parse_cb => parse
               | parse_article_cb => parse_article
               | parse_item_cb => parse_item
               end).
End WithEnv.
End AsosSpider.

(** ** A crawl *)

(** A response answers a request: it carries the request's meta, and it
    has a URL. *)
Definition answers (req : Request.t) (resp : Response.t) : Prop :=
  Response.meta resp = Request.meta req ∧ Response.url resp ≠ "".

(** The requests a spider issues: one per start URL, for [parse], and those
    a callback yields on a response to an issued request. *)
Inductive issued (sp : Spider) : Request.t → Prop :=
  | issued_start u :
      u ∈ start_urls sp → issued sp (Request.make u parse_cb empty_meta)
  | issued_follow req resp req' :
      issued sp req → answers req resp →
      OutRequest req' ∈ yielded (dispatch sp (Request.callback req) resp) →
      issued sp req'.

(** The items that reach the pipeline, hence the exporter. *)
Inductive routed (sp : Spider) : Item → Prop :=
  | routed_item req resp item :
      issued sp req → answers req resp →
      OutItem item ∈ yielded (dispatch sp (Request.callback req) resp) →
      routed sp item.

(** ** Notions the properties are stated with *)










(** The category indicators and the product tiles of a grid page. *)
Definition indicators (response : Response.t) : list string :=
  Response.css response "li a span[itemprop=name]::text".
Definition tiles (response : Response.t) : list string :=
  Response.css response ".product-photo-href::attr(href)".

(** The values the loader has collected under [k] are exactly [vs]. *)
Definition holds_only (k : string) (vs : list string) (loader : ItemLoader.t) : Prop :=
  (k, vs) ∈ loader ∧ ∀ vs', (k, vs') ∈ loader → vs' = vs.

(** The loader has collected nothing under [k]. *)
Definition holds_none (k : string) (loader : ItemLoader.t) : Prop :=
  ∀ vs, (k, vs) ∉ loader.



(** A small URL library to run the spiders on examples: a URL is split at
    its first question mark, and a query is written as [key=value] pairs. *)
Module ExampleUrllib.
Fixpoint before_query (u : string) : string :=
  match u with
  | EmptyString => EmptyString
  | String c t => if bool_decide (c = "?"%char) then EmptyString else String c (before_query t)
  end.

Fixpoint after_query (u : string) : string :=
  match u with
  | EmptyString => EmptyString
  | String c t => if bool_decide (c = "?"%char) then t else after_query t
  end.

Definition render (v : qvalue) : string :=
  match v with
  | QList l => Py.str_join "," l
  | QInt z => NilZero.string_of_int (Z.to_int z)
  end.

Definition instance : Urllib := {|
  urljoin base u := if Py.contains ":" u then u else base +:+ u;
  urlparse u := Url.make "" "" (before_query u) "" (after_query u) "";
  urlunparse p := Url.path p +:+ "?" +:+ Url.query p;
  parse_qs q := [];
  urlencode d := Py.str_join "&" (map (fun kv => kv.1 +:+ "=" +:+ render kv.2) d);
  url_query_cleaner u := before_query u
|}.
End ExampleUrllib.

(** The URL both callbacks of the Nordstrom spider build for page [page] of
    the grid at [url]: the query of [url] with [top] set to 4 and [page] to
    the page number. *)
Definition page_url `{Urllib} (url : string) (page : Z) : string :=
  let url_parts := urlparse url in
  let query := Dict.update (NordstromSpider.query_of url_parts)
                 [("top", QInt 4); ("page", QInt page)] in
  urlunparse (Url.set_query url_parts (urlencode query)).

(** The request for page [page] of the grid at [url]. *)
Definition page_request `{Urllib} (url : string) (page : Z) : Request.t :=
  Request.make (page_url url page) parse_article_cb (mkMeta (Some page) None None None).

(** The request for the product behind a tile of a grid page. *)
Definition product_request `{Urllib} (response : Response.t) (article : string)
  : Request.t :=
  Request.make (urljoin (Response.url response) article) parse_item_cb
    (mkMeta None
       (Some (Response.css response "li a span[itemprop=name]::text")) None None).

(** ** Pages to run the spiders on *)

Module Example.
(** The matches of the locators listed, none for any other. *)
Definition page (matches : list (string * list string)) (locator : string) : list string :=
  default [] (Dict.get locator matches).

Definition start_page : Response.t :=
  Response.make "http://shop.nordstrom.com/?origin=tab-logo" empty_meta
    (page [("li a::attr(href)", ["http://shop.nordstrom.com/c/womens-boots"])])
    (fun _ _ => None).

(** The first request of the branch of the link on the start page. *)
Definition first_request : Request.t :=
  @page_request ExampleUrllib.instance
    (@urljoin ExampleUrllib.instance (Response.url start_page)
       "http://shop.nordstrom.com/c/womens-boots") 1.

(** A grid page with two tiles, in answer to [req]. *)
Definition grid_page (req : Request.t) : Response.t :=
  Response.make (Request.url req) (Request.meta req)
    (page [("li a span[itemprop=name]::text", ["Home"; "Women"; "Shoes"; "Boots"]);
           (".product-photo-href::attr(href)",
              ["http://shop.nordstrom.com/s/chelsea-boot";
               "http://shop.nordstrom.com/s/combat-boot"])])
    (fun _ _ => None).



(** The request for the first product of the grid page, and a product
    page in answer to it. *)
Definition boot_request : Request.t :=
  @product_request ExampleUrllib.instance (grid_page first_request)
    "http://shop.nordstrom.com/s/chelsea-boot".

Definition boot_page : Response.t :=
  Response.make (Request.url boot_request) (Request.meta boot_request)
    (page [("section[class=np-product-title] h1::text", ["Chelsea Boot"]);
           ("section[class=brand-title] h2 a span::text", ["ACME"]);
           ("div[class=current-price]::text", ["$99.95"]);
           ("li.image-thumbnail img::attr(src)", ["http://img.example/boot.jpg?w=60"])])
    (fun _ _ => None).

(** An asos page without the script of the product data, and one with a
    category link and a product link. *)
Definition asos_set_page : Response.t :=
  Response.make "http://us.asos.com/set/1" empty_meta (page []) (fun _ _ => None).

Definition asos_menu_page : Response.t :=
  Response.make "http://us.asos.com/" empty_meta
    (page [("div[class=sub-floor-menu] li a::attr(href)", ["http://us.asos.com/women/shoes"]);
           ("a.product.product-link::attr(href)", ["http://us.asos.com/prd/1"])])
    (fun _ _ => None).
End Example.

(** Stand-ins for [re], [json] and the loader over [AsosItem], to run the
    asos spider on examples. *)
Module ExampleAsosEnv.
Definition instance : AsosEnv := {|
  re_sub _ _ s := s;
  json_loads _ := Raise ValueError;
  asos_loader := list (string * list json);
  asos_new_loader _ := [];
  asos_add_css l _ _ := Ok l;
  asos_add_value l field v := Ok (Dict.setitem field [v] l);
  asos_load_item _ := Ok []
|}.
End ExampleAsosEnv.

Module ExampleRun.
(** The record the Nordstrom spider yields on the product page. *)
Definition boot_item : Item :=
  match yielded (@NordstromSpider.parse_item ExampleUrllib.instance Example.boot_page) with
  | [OutItem item] => item
  | _ => []
  end.
End ExampleRun.

(** ** Notions the further properties are stated with *)

(** What [add_value] leaves in the loader when the field is declared. *)
Definition stored (loader : ItemLoader.t) (field_name : string) (value : list string)
  : ItemLoader.t :=
  match value with
  | [] => loader
  | _ => Dict.setitem field_name (default [] (Dict.get field_name loader) ++ value) loader
  end.

(** The values [parse_item] of the Nordstrom spider hands to its loader,
    field by field in the order of the calls, on a response whose meta
    holds [article_type]. *)
Definition collected (response : Response.t) (article_type : list string)
  : list (string * list string) :=
  [ ("article_type", article_type);
    ("product_name", Response.css response "section[class=np-product-title] h1::text");
    ("product_url", [Response.url response]);
    ("brand_name", Response.css response "section[class=brand-title] h2 a span::text");
    ("price", Response.css response "div[class=current-price]::text");
    ("fit", Response.css response
       "section.size-filter div[class=drop-down-options] div[class=option-main-text]::text");
    ("width", Response.css response
       "section.width-filter div[class=drop-down-options] div[class=option-main-text]::text");
    ("colors", Response.css response
       "section.color-filter div[class=color-option-text] div[class=option-main-text]::text");
    ("size_info", Response.css response
       "div.extended-product-details div.np-size-info span::text");
    ("details_and_care_info", Response.css response
       "div.product-details-and-care div.item-description-body p::text");
    ("details_and_care_list", Response.css response
       "div.product-details-and-care ul li::text");
    ("image_urls", Response.css response "li.image-thumbnail img::attr(src)");
    ("images", []) ].

(** The loader after all the calls of [parse_item]. *)
Definition loaded (response : Response.t) (article_type : list string) : ItemLoader.t :=
  foldl (fun loader kv => stored loader kv.1 kv.2) ItemLoader.empty
    (collected response article_type).

(** A list of values or, for no value, nothing. *)
Definition some_values {A} (f : list string → A) (values : list string) : option A :=
  match values with
  | [] => None
  | _ => Some (f values)
  end.

(** More pages: a product reached under one label only, and one reached
    under a home label and a sale label. *)
Module ExamplePages.
Definition one_label_page : Response.t :=
  Response.make "http://shop.nordstrom.com/s/gift-card"
    (mkMeta None (Some ["Gift Cards"]) None None)
    (Example.page [("section[class=np-product-title] h1::text", ["Gift Card"])])
    (fun _ _ => None).

Definition home_sale_page : Response.t :=
  Response.make "http://shop.nordstrom.com/s/clearance-tee"
    (mkMeta None (Some ["Home"; "Sale"]) None None)
    (Example.page [("section[class=np-product-title] h1::text", [""; "Clearance Tee"]);
                   ("div[class=current-price]::text", ["$9.00"; "$12.00"]);
                   ("section.size-filter div[class=drop-down-options] div[class=option-main-text]::text",
                      ["S"; "M"])])
    (fun _ _ => None).

End ExamplePages.

(** Membership in a list written out. *)
Ltac in_list := repeat first [apply list_elem_of_here | apply list_elem_of_further].

(** Every character of [s] is a printable ASCII character. *)
Fixpoint printable (s : string) : bool :=
  match s with
  | EmptyString => true
  | String c t =>
      ((32 <=? N_of_ascii c) && (N_of_ascii c <=? 126))%N && printable t
  end.


(** * Properties *)

(** ** Category-path cleanup *)

Section RemoveSaleHomeFacts.
Import RemoveSaleHome.

Lemma norm_index_in_range {A} (l : list A) (i : Z) :
  0 <= i < Z.of_nat (length l) → Py.norm_index l i = Some (Z.to_nat i).
Proof.
  intros Hi. unfold Py.norm_index.
  destruct (Z.ltb_spec i 0); [lia|].
  destruct (Z.leb_spec 0 i); [|lia].
  destruct (Z.ltb_spec i (Z.of_nat (length l))); [reflexivity|lia].
Qed.

Lemma norm_index_too_large {A} (l : list A) (i : Z) :
  Z.of_nat (length l) <= i → 0 <= i → Py.norm_index l i = None.
Proof.
  intros Hi H0. unfold Py.norm_index.
  destruct (Z.ltb_spec i 0); [lia|].
  destruct (Z.ltb_spec i (Z.of_nat (length l))); [lia|].
  rewrite andb_false_r. reflexivity.
Qed.

Lemma getitem_0 {A} (x : A) l : Py.getitem (x :: l) 0 = Ok x.
Proof.
  unfold Py.getitem. rewrite norm_index_in_range by (cbn [length]; lia).
  reflexivity.
Qed.

Lemma getitem_1 {A} (x y : A) l : Py.getitem (x :: y :: l) 1 = Ok y.
Proof.
  unfold Py.getitem. rewrite norm_index_in_range by (cbn [length]; lia).
  reflexivity.
Qed.

Lemma pop_0 {A} (x : A) l : Py.pop (x :: l) 0 = Ok (x, l).
Proof.
  unfold Py.pop. rewrite norm_index_in_range by (cbn [length]; lia).
  reflexivity.
Qed.

Lemma pop_1 {A} (x y : A) l : Py.pop (x :: y :: l) 1 = Ok (y, x :: l).
Proof.
  unfold Py.pop. rewrite norm_index_in_range by (cbn [length]; lia).
  reflexivity.
Qed.

Lemma getitem_1_short {A} (l : list A) :
  (length l < 2)%nat → Py.getitem l 1 = Raise IndexError.
Proof.
  intros Hl. unfold Py.getitem.
  rewrite norm_index_too_large by lia. reflexivity.
Qed.

(** The closed form of the cleanup on a list of two or more labels. *)
Lemma call_two_or_more (a b : string) (rest : list string) :
  __call__ (a :: b :: rest) =
    Ok ((if has_home a then [] else [a]) ++
        (if has_sale b then [] else [b]) ++ rest).
Proof.
  unfold __call__, has_home, has_sale.
  rewrite getitem_1. cbn [mbind result_bind].
  destruct (Py.contains "sale" (Py.lower b)).
  - rewrite pop_1. cbn [fmap result_fmap snd mbind result_bind].
    rewrite getitem_0. cbn [mbind result_bind].
    destruct (Py.contains "home" (Py.lower a)); [rewrite pop_0|]; reflexivity.
  - cbn [mbind result_bind]. rewrite getitem_0. cbn [mbind result_bind].
    destruct (Py.contains "home" (Py.lower a)); [rewrite pop_0|]; reflexivity.
Qed.

Lemma call_short (values : list string) :
  (length values < 2)%nat → __call__ values = Raise IndexError.
Proof.
  intros Hl. unfold __call__. rewrite getitem_1_short by exact Hl.
  reflexivity.
Qed.

(** C1.  On a list of two or more labels the cleanup tests the label at
    index 1 for [sale] and drops it on a match, then tests the label then
    at index 0 for [home] and drops it on a match.  Nothing beyond the
    first two positions is looked at: the labels kept of the first two do
    not depend on the rest, and the rest comes out as it went in.  (On a
    shorter list the test of index 1 is the first thing to fail.) *)
Theorem RemoveSaleHome_inspects_first_two (values : list string) :
  match values with
  | a :: b :: rest =>
      let after_sale :=
        if Py.contains "sale" (Py.lower b) then a :: rest else a :: b :: rest in
      __call__ values =
        Ok (match after_sale with
            | first :: others =>
                if Py.contains "home" (Py.lower first) then others else after_sale
            | [] => after_sale
            end)
      ∧ ∃ kept : list string,
          kept `sublist_of` [a; b]
          ∧ ∀ rest' : list string, __call__ (a :: b :: rest') = Ok (kept ++ rest')
  | _ => Py.getitem values 1 = Raise IndexError ∧ __call__ values = Raise IndexError
  end.
Proof.
  destruct values as [|a [|b rest]];
    [split; [apply getitem_1_short | apply call_short]; cbn; lia.. |].
  cbv zeta. split.
  - rewrite call_two_or_more. unfold has_home, has_sale.
    destruct (Py.contains "sale" (Py.lower b));
      destruct (Py.contains "home" (Py.lower a)); reflexivity.
  - exists ((if has_home a then [] else [a]) ++ (if has_sale b then [] else [b])).
    split.
    + destruct (has_home a), (has_sale b); cbn;
        repeat first [ apply sublist_nil | apply sublist_skip | apply sublist_cons
                     | reflexivity ].
    + intros rest'. rewrite call_two_or_more, <- app_assoc. reflexivity.
Qed.

(** C2, as stated, fails: a leading [sale] stays, since index 0 is only
    tested for [home]; and [sale] at index 1 goes. *)
Lemma cleanup_examples_as_stated_fail :
  ¬ (__call__ ["sale"; "women"; "shoes"] = Ok ["women"; "shoes"]
     ∧ __call__ ["women"; "sale"; "shoes"] = Ok ["women"; "sale"; "shoes"]).
Proof. intros [H _]. vm_compute in H. discriminate H. Qed.

(** C2, amended.  The cleanup leaves [sale, women, shoes] as it is, and
    turns [women, sale, shoes] into [women, shoes]. *)
Theorem cleanup_examples :
  __call__ ["sale"; "women"; "shoes"] = Ok ["sale"; "women"; "shoes"]
  ∧ __call__ ["women"; "sale"; "shoes"] = Ok ["women"; "shoes"].
Proof. split; vm_compute; reflexivity. Qed.

(** The other two examples of the specification hold as given. *)
Example cleanup_home_sale : __call__ ["home"; "sale"; "shoes"] = Ok ["shoes"].
Proof. vm_compute. reflexivity. Qed.

Example cleanup_home : __call__ ["home"; "women"; "shoes"] = Ok ["women"; "shoes"].
Proof. vm_compute. reflexivity. Qed.

Example cleanup_case_insensitive :
  __call__ ["Home"; "SALE & Clearance"; "Shoes"] = Ok ["Shoes"].
Proof. vm_compute. reflexivity. Qed.

(** C10.  On a list of fewer than two labels the read of index 1 is out
    of range, and the cleanup raises [IndexError]. *)
Theorem RemoveSaleHome_short_list_raises (values : list string) :
  (length values < 2)%nat →
  Py.getitem values 1 = Raise IndexError ∧ __call__ values = Raise IndexError.
Proof.
  intros Hl. split; [apply getitem_1_short | apply call_short]; exact Hl.
Qed.

Lemma RemoveSaleHome_short_list_raises_witness :
  (length ["women"] < 2)%nat
  ∧ Py.getitem ["women"] 1 = Raise IndexError
  ∧ __call__ ["women"] = Raise IndexError.
Proof.
  split; [cbn; lia|].
  apply (RemoveSaleHome_short_list_raises ["women"]). cbn. lia.
Defined.
End RemoveSaleHomeFacts.

(** ** Facts on strings *)

Section StringFacts.

Lemma append_cons (c : ascii) (s t : string) : String c s +:+ t = String c (s +:+ t).
Proof. reflexivity. Qed.

Lemma append_nil_l (s : string) : "" +:+ s = s.
Proof. reflexivity. Qed.







End StringFacts.

(** ** The price field *)

Section PriceFacts.

Lemma bind_singleton_map {A B} (f : A → B) (l : list A) :
  (l ≫= (fun v => [f v])) = map f l.
Proof. induction l as [|x l IH]; [reflexivity|]. cbn. rewrite <- IH. reflexivity. Qed.

Lemma MapCompose_one (f : string → string) (values : list string) :
  MapCompose [f] values = map f values.
Proof. unfold MapCompose. cbn [foldl]. apply bind_singleton_map. Qed.

(** C8, as stated, fails: a matched string that does not begin with a
    currency symbol loses its first character all the same. *)
Lemma price_processor_not_only_currency :
  price_output_processor ["12.00"] = ["2.00"]
  ∧ price_output_processor ["12.00"] ≠ map strip_leading_currency ["12.00"].
Proof. split; [reflexivity|]. vm_compute. discriminate. Qed.

(** C8, amended.  The output processor of the price field returns, in
    extraction order and one for one, every matched string without its
    first character, whatever that character is; the rest of the string is
    kept as it is, and the empty string stays empty.  On a string that
    begins with a currency symbol this removes exactly that symbol. *)
Theorem price_processor_drops_first_character
  (cleaner : string → string) (values : list string) :
  Dict.get "price" (NordstromItem cleaner) ≫= (fun proc => Some (proc values))
    = Some (Ok (Some (FList (price_output_processor values))))
  ∧ price_output_processor values = map Py.slice_from_1 values
  ∧ length (price_output_processor values) = length values
  ∧ (∀ (c : ascii) (rest : string),
       price_output_processor [String c rest] = [rest]
       ∧ price_output_processor [String c rest] =
           [if is_currency_symbol c then strip_leading_currency (String c rest)
            else rest])
  ∧ price_output_processor [""] = [""].
Proof.
  unfold price_output_processor. rewrite MapCompose_one.
  split; [reflexivity|]. split; [reflexivity|].
  split; [apply length_map|]. split; [|reflexivity].
  intros c rest. rewrite MapCompose_one. split; [reflexivity|].
  cbn. destruct (is_currency_symbol c); reflexivity.
Qed.

End PriceFacts.

(** ** The partition of an item *)

Section PartitionFacts.
Import JsonLinesItemSplitFileExporter.




























(** The examples of the specification: the file carries the extension. *)
Example partition_one_label :
  partition "acme" ["a"] = Ok ("scraped_data/acme", "scraped_data/acme/a.jl").
Proof. reflexivity. Qed.

Example partition_three_labels :
  partition "acme" ["a"; "b"; "c"]
  = Ok ("scraped_data/acme/a/b", "scraped_data/acme/a/b/c.jl").
Proof. reflexivity. Qed.



End PartitionFacts.

(** ** The lines of a partition file *)

Section AppendFacts.
Import JsonLinesItemSplitFileExporter.


















End AppendFacts.

(** ** Generators *)

Section GeneratorFacts.

Lemma for_each_yield {X} (f : X → output) (l : list X) :
  for_each l (fun x => yield (f x)) = (map f l, Ok tt).
Proof.
  induction l as [|x l IH]; [reflexivity|].
  cbn [for_each]. rewrite IH. reflexivity.
Qed.

Lemma for_each_raise {X} (e : exn) (l : list X) (body : X → gen unit) :
  l ≠ [] → (∀ x, body x = ([], Raise e)) → for_each l body = ([], Raise e).
Proof.
  destruct l as [|x l]; [congruence|]. intros _ Hbody.
  cbn [for_each]. rewrite Hbody. reflexivity.
Qed.

Lemma for_each_raise_yields {X} (e : exn) (l : list X) (body : X → gen unit) :
  (∀ x, body x = ([], Raise e)) →
  yielded (for_each l body) = [] ∧ (l ≠ [] → for_each l body = ([], Raise e)).
Proof.
  intros Hbody. destruct l as [|x l]; [split; [reflexivity | congruence]|].
  rewrite (for_each_raise e (x :: l) body) by (discriminate || exact Hbody).
  split; reflexivity.
Qed.


End GeneratorFacts.

(** ** The page counter of the Nordstrom spider *)

Section PaginationFacts.
Context `{Urllib}.
Import NordstromSpider.

Lemma parse_yields (response : Response.t) :
  parse response =
    (map (fun product_page =>
            OutRequest (page_request (urljoin (Response.url response) product_page) 1))
         (Response.css response "li a::attr(href)"), Ok tt).
Proof. unfold parse. rewrite for_each_yield. reflexivity. Qed.

Lemma parse_article_not_grid (response : Response.t) :
  indicators response = [] → parse_article response = ([], Ok tt).
Proof.
  unfold indicators, parse_article. intros ->.
  rewrite bool_decide_eq_false_2 by (intros E; apply E; reflexivity). reflexivity.
Qed.

Lemma parse_article_exhausted (response : Response.t) :
  indicators response ≠ [] → tiles response = [] →
  parse_article response = ([], Ok tt).
Proof.
  unfold indicators, tiles, parse_article. intros Hi ->.
  rewrite bool_decide_eq_true_2 by exact Hi.
  rewrite bool_decide_eq_false_2 by (intros E; apply E; reflexivity). reflexivity.
Qed.

Lemma parse_article_next (response : Response.t) :
  indicators response ≠ [] → tiles response ≠ [] →
  parse_article response =
    match meta_page (Response.meta response) with
    | Some page =>
        (map (fun a => OutRequest (product_request response a)) (tiles response)
           ++ [OutRequest (page_request (Response.url response) (page + 1))], Ok tt)
    | None =>
        (map (fun a => OutRequest (product_request response a)) (tiles response),
         Raise KeyError)
    end.
Proof.
  unfold indicators, tiles, parse_article. intros Hi Ht.
  rewrite bool_decide_eq_true_2 by exact Hi.
  rewrite bool_decide_eq_true_2 by exact Ht.
  rewrite for_each_yield. unfold meta_getitem.
  destruct (meta_page (Response.meta response)) as [page|];
    cbn; rewrite ?app_nil_r; reflexivity.
Qed.




End PaginationFacts.

Section PaginationExample.
Import NordstromSpider Example.


End PaginationExample.

(** ** The product URL of a record *)

Section DictFacts.
Context {V : Type}.

Lemma get_setitem_eq (k : string) (v : V) (d : list (string * V)) :
  Dict.get k (Dict.setitem k v d) = Some v.
Proof.
  induction d as [|[k' v'] d IH]; cbn [Dict.setitem Dict.get].
  - rewrite decide_True by reflexivity. reflexivity.
  - destruct (decide (k = k')) as [->|Hne]; cbn [Dict.get].
    + rewrite decide_True by reflexivity. reflexivity.
    + rewrite decide_False by exact Hne. exact IH.
Qed.

Lemma get_setitem_ne (k k' : string) (v : V) (d : list (string * V)) :
  k ≠ k' → Dict.get k' (Dict.setitem k v d) = Dict.get k' d.
Proof.
  intros Hne. induction d as [|[k0 v0] d IH]; cbn [Dict.setitem Dict.get].
  - rewrite decide_False by congruence. reflexivity.
  - destruct (decide (k = k0)) as [->|Hne0]; cbn [Dict.get].
    + rewrite !decide_False by congruence. reflexivity.
    + destruct (decide (k' = k0)); [reflexivity | exact IH].
Qed.

Lemma elem_of_setitem (k k' : string) (v x : V) (d : list (string * V)) :
  (k', x) ∈ Dict.setitem k v d → (k' = k ∧ x = v) ∨ (k', x) ∈ d.
Proof.
  induction d as [|[k0 v0] d IH]; cbn [Dict.setitem].
  - intros [= -> ->]%list_elem_of_singleton. left. split; reflexivity.
  - destruct (decide (k = k0)) as [->|Hne].
    + intros [[= -> ->]|Hin]%elem_of_cons; [left; split; reflexivity|].
      right. apply elem_of_cons. right. exact Hin.
    + intros [[= -> ->]|Hin]%elem_of_cons.
      * right. apply elem_of_cons. left. reflexivity.
      * destruct (IH Hin) as [?|?]; [left; assumption|].
        right. apply elem_of_cons. right. assumption.
Qed.

Lemma elem_of_setitem_same (k : string) (v : V) (d : list (string * V)) :
  (k, v) ∈ Dict.setitem k v d.
Proof.
  induction d as [|[k0 v0] d IH]; cbn [Dict.setitem].
  - apply list_elem_of_here.
  - destruct (decide (k = k0)); [apply list_elem_of_here|].
    apply elem_of_cons. right. exact IH.
Qed.

Lemma elem_of_setitem_other (k k' : string) (v x : V) (d : list (string * V)) :
  k ≠ k' → (k', x) ∈ d → (k', x) ∈ Dict.setitem k v d.
Proof.
  intros Hne. induction d as [|[k0 v0] d IH]; cbn [Dict.setitem].
  - intros Hin. inversion Hin.
  - destruct (decide (k = k0)) as [->|Hne0].
    + intros [[= <- <-]|Hin]%elem_of_cons; [congruence|].
      apply elem_of_cons. right. exact Hin.
    + intros [E|Hin]%elem_of_cons; apply elem_of_cons; [left; exact E|].
      right. apply IH. exact Hin.
Qed.

End DictFacts.

Section LoaderFacts.
Variable fields : list (string * processor).

Lemma add_value_other (k f : string) (vs : list string) (loader loader' : ItemLoader.t) :
  f ≠ k → ItemLoader.add_value fields loader f vs = Ok loader' →
  ∀ x, (k, x) ∈ loader' ↔ (k, x) ∈ loader.
Proof.
  unfold ItemLoader.add_value. intros Hne Hadd x.
  destruct (Dict.get f fields); [|discriminate Hadd].
  destruct vs as [|v vs]; injection Hadd as <-; [reflexivity|].
  split.
  - intros [[E _]|Hin]%elem_of_setitem; [congruence | exact Hin].
  - apply elem_of_setitem_other. exact Hne.
Qed.

Lemma add_value_none (k f : string) (vs : list string) (loader loader' : ItemLoader.t) :
  f ≠ k → ItemLoader.add_value fields loader f vs = Ok loader' →
  holds_none k loader → holds_none k loader'.
Proof.
  intros Hne Hadd Hnone x Hin. apply (Hnone x).
  apply (add_value_other k f vs loader loader' Hne Hadd). exact Hin.
Qed.

Lemma add_value_only (k f : string) (vs ws : list string) (loader loader' : ItemLoader.t) :
  f ≠ k → ItemLoader.add_value fields loader f vs = Ok loader' →
  holds_only k ws loader → holds_only k ws loader'.
Proof.
  intros Hne Hadd [Hin Hall]. split.
  - apply (add_value_other k f vs loader loader' Hne Hadd). exact Hin.
  - intros vs' Hin'. apply Hall.
    apply (add_value_other k f vs loader loader' Hne Hadd). exact Hin'.
Qed.

Lemma add_value_first (k v : string) (loader loader' : ItemLoader.t) :
  ItemLoader.add_value fields loader k [v] = Ok loader' →
  holds_none k loader → holds_only k [v] loader'.
Proof.
  unfold ItemLoader.add_value. intros Hadd Hnone.
  destruct (Dict.get k fields); [|discriminate Hadd].
  injection Hadd as <-.
  assert (Hget : Dict.get k loader = None).
  { clear -Hnone. induction loader as [|[k0 v0] l IH]; [reflexivity|].
    cbn [Dict.get]. destruct (decide (k = k0)) as [->|Hne].
    - exfalso. apply (Hnone v0), list_elem_of_here.
    - apply IH. intros x Hin. apply (Hnone x), elem_of_cons. right. exact Hin. }
  rewrite Hget. cbn [default app]. split.
  - apply elem_of_setitem_same.
  - intros vs' [[_ E]|Hin]%elem_of_setitem; [exact E|].
    exfalso. exact (Hnone vs' Hin).
Qed.

Lemma load_fields_field (k : string) (v : field_value) (values : ItemLoader.t) :
  ∀ item item' : Item,
    ItemLoader.load_fields fields values item = Ok item' →
    (∀ vs, (k, vs) ∈ values → ItemLoader.get_output_value fields k vs = Ok (Some v)) →
    Dict.get k item = Some v ∨ (∃ vs, (k, vs) ∈ values) →
    Dict.get k item' = Some v.
Proof.
  induction values as [|[f vs] values IH]; intros item item' Hload Hall Hsome.
  - injection Hload as <-. destruct Hsome as [Hget|[vs Hin]]; [exact Hget|].
    inversion Hin.
  - cbn [ItemLoader.load_fields] in Hload.
    destruct (ItemLoader.get_output_value fields f vs) as [value|e] eqn:Hout;
      [|discriminate Hload].
    cbn [mbind result_bind] in Hload.
    apply (IH _ _ Hload).
    + intros vs' Hin. apply Hall, elem_of_cons. right. exact Hin.
    + destruct (decide (f = k)) as [->|Hne].
      * left. rewrite (Hall vs) in Hout by apply list_elem_of_here.
        injection Hout as <-. apply get_setitem_eq.
      * destruct Hsome as [Hget|[vs' Hin]].
        -- left. destruct value; [rewrite get_setitem_ne by exact Hne|]; exact Hget.
        -- apply elem_of_cons in Hin as [[= <- <-]|Hin]; [congruence|].
           right. exists vs'. exact Hin.
Qed.

End LoaderFacts.

Section ProductUrlFacts.
Context `{Urllib}.
Import NordstromSpider.

Lemma lift_bind_yields {A} (r : result A) (f : A → gen unit) (o : output) :
  o ∈ yielded (lift r ≫= f) → ∃ a, r = Ok a ∧ o ∈ yielded (f a).
Proof.
  destruct r as [a|e]; cbn.
  - intros Hin. exists a. split; [reflexivity|]. destruct (f a). exact Hin.
  - intros Hin. inversion Hin.
Qed.

Lemma product_url_output (cleaner : string → string) (url : string) :
  url ≠ "" →
  ItemLoader.get_output_value (NordstromItem cleaner) "product_url" [url]
  = Ok (Some (FStr url)).
Proof.
  intros Hurl. unfold ItemLoader.get_output_value.
  change (Dict.get "product_url" (NordstromItem cleaner))
    with (Some (fun values : list string => Ok (FStr <$> TakeFirst values))
          : option processor).
  cbv beta iota. cbn [TakeFirst].
  rewrite bool_decide_eq_true_2 by exact Hurl. reflexivity.
Qed.

Lemma parse_item_product_url (response : Response.t) (item : Item) :
  Response.url response ≠ "" →
  OutItem item ∈ yielded (parse_item response) →
  Dict.get "product_url" item = Some (FStr (Response.url response)).
Proof.
  intros Hurl Hin. unfold parse_item in Hin.
  set (fields := NordstromItem url_query_cleaner) in *.
  set (k := "product_url").
  apply lift_bind_yields in Hin as (article_type & _ & Hin).
  apply lift_bind_yields in Hin as (L1 & E1 & Hin).
  apply lift_bind_yields in Hin as (L2 & E2 & Hin).
  apply lift_bind_yields in Hin as (L3 & E3 & Hin).
  apply lift_bind_yields in Hin as (L4 & E4 & Hin).
  apply lift_bind_yields in Hin as (L5 & E5 & Hin).
  apply lift_bind_yields in Hin as (L6 & E6 & Hin).
  apply lift_bind_yields in Hin as (L7 & E7 & Hin).
  apply lift_bind_yields in Hin as (L8 & E8 & Hin).
  apply lift_bind_yields in Hin as (L9 & E9 & Hin).
  apply lift_bind_yields in Hin as (L10 & E10 & Hin).
  apply lift_bind_yields in Hin as (L11 & E11 & Hin).
  apply lift_bind_yields in Hin as (L12 & E12 & Hin).
  apply lift_bind_yields in Hin as (L13 & E13 & Hin).
  apply lift_bind_yields in Hin as (loaded & Eload & Hin).
  apply list_elem_of_singleton in Hin as [= ->].
  unfold ItemLoader.add_css in *.
  assert (N0 : holds_none k ItemLoader.empty) by (intros x Hx; inversion Hx).
  assert (N1 : holds_none k L1)
    by (eapply add_value_none; [|exact E1|exact N0]; discriminate).
  assert (N2 : holds_none k L2)
    by (eapply add_value_none; [|exact E2|exact N1]; discriminate).
  pose proof (add_value_first fields k _ _ _ E3 N2) as O3.
  assert (O4 : holds_only k [Response.url response] L4)
    by (eapply add_value_only; [|exact E4|exact O3]; discriminate).
  assert (O5 : holds_only k [Response.url response] L5)
    by (eapply add_value_only; [|exact E5|exact O4]; discriminate).
  assert (O6 : holds_only k [Response.url response] L6)
    by (eapply add_value_only; [|exact E6|exact O5]; discriminate).
  assert (O7 : holds_only k [Response.url response] L7)
    by (eapply add_value_only; [|exact E7|exact O6]; discriminate).
  assert (O8 : holds_only k [Response.url response] L8)
    by (eapply add_value_only; [|exact E8|exact O7]; discriminate).
  assert (O9 : holds_only k [Response.url response] L9)
    by (eapply add_value_only; [|exact E9|exact O8]; discriminate).
  assert (O10 : holds_only k [Response.url response] L10)
    by (eapply add_value_only; [|exact E10|exact O9]; discriminate).
  assert (O11 : holds_only k [Response.url response] L11)
    by (eapply add_value_only; [|exact E11|exact O10]; discriminate).
  assert (O12 : holds_only k [Response.url response] L12)
    by (eapply add_value_only; [|exact E12|exact O11]; discriminate).
  assert (O13 : holds_only k [Response.url response] L13)
    by (eapply add_value_only; [|exact E13|exact O12]; discriminate).
  destruct O13 as [Hin Hall].
  apply (load_fields_field fields k _ L13 [] loaded Eload).
  - intros vs Hvs. rewrite (Hall vs Hvs).
    apply product_url_output. exact Hurl.
  - right. exists [Response.url response]. exact Hin.
Qed.

End ProductUrlFacts.


(** ** The asos spider *)

Section AsosFacts.
Import AsosSpider.

Lemma item_is_unbound : load_global "item" = Raise NameError.
Proof. vm_compute. reflexivity. Qed.

Lemma parse_yields_nothing (response : Response.t) :
  yielded (parse response) = []
  ∧ (Response.css response "div[class=sub-floor-menu] li a::attr(href)" ≠ [] →
     parse response = ([], Raise NameError)).
Proof.
  unfold parse. apply for_each_raise_yields.
  intros x. rewrite item_is_unbound. reflexivity.
Qed.

Lemma parse_article_raises (response : Response.t) :
  Response.css response "a.product.product-link::attr(href)" ≠ [] →
  parse_article response = ([], Raise NameError).
Proof.
  intros Hne. unfold parse_article. apply for_each_raise; [exact Hne|].
  intros x. rewrite item_is_unbound. reflexivity.
Qed.

Lemma issued_only_parse `{AsosEnv} (req : Request.t) :
  issued spider req → Request.callback req = parse_cb.
Proof.
  induction 1 as [u _ | req resp req' _ IH _ Hin]; [reflexivity|].
  rewrite IH in Hin. cbn [dispatch spider] in Hin.
  rewrite (proj1 (parse_yields_nothing resp)) in Hin. inversion Hin.
Qed.

(** C6.  On a product page where the script of the product data is not
    found, [parse_item] of the asos spider returns at once: it yields no
    record and raises nothing.  The outcome is a function of the page. *)
Theorem asos_parse_item_skips `{AsosEnv} (response : Response.t) :
  Response.xpath_re_first response full_product_script "view\('(\{.*\})'," = None
  ∨ Response.xpath_re_first response full_product_script "view\('(\{.*\})'," = Some "" →
  parse_item response = ([], Ok tt).
Proof. unfold parse_item. intros [-> | ->]; reflexivity. Qed.

Lemma asos_parse_item_skips_witness :
  Response.xpath_re_first Example.asos_set_page full_product_script "view\('(\{.*\})',"
    = None
  ∧ @parse_item ExampleAsosEnv.instance Example.asos_set_page = ([], Ok tt).
Proof.
  split; [reflexivity|].
  apply (@asos_parse_item_skips ExampleAsosEnv.instance Example.asos_set_page).
  left. reflexivity.
Defined.

(** C7.  [parse] and [parse_article] of the asos spider read the name
    [item], which nothing binds: on a response with at least one link the
    callback stops with [NameError] before it yields a request.  So the
    spider issues no request but those for its start URLs, and no product
    page is ever requested. *)
Theorem asos_link_callbacks_raise `{AsosEnv} :
  (∀ response : Response.t,
     Response.css response "div[class=sub-floor-menu] li a::attr(href)" ≠ [] →
     parse response = ([], Raise NameError))
  ∧ (∀ response : Response.t,
       Response.css response "a.product.product-link::attr(href)" ≠ [] →
       parse_article response = ([], Raise NameError))
  ∧ (∀ req : Request.t,
       issued spider req →
       Request.callback req = parse_cb ∧ Request.callback req ≠ parse_item_cb).
Proof.
  split; [intros response; apply parse_yields_nothing|].
  split; [exact parse_article_raises|].
  intros req Hreq. rewrite (issued_only_parse req Hreq). split; [reflexivity | discriminate].
Qed.

Lemma asos_link_callbacks_raise_witness :
  parse Example.asos_menu_page = ([], Raise NameError)
  ∧ parse_article Example.asos_menu_page = ([], Raise NameError)
  ∧ issued (@spider ExampleAsosEnv.instance)
      (Request.make "http://us.asos.com/" parse_cb empty_meta)
  ∧ Request.callback (Request.make "http://us.asos.com/" parse_cb empty_meta) ≠ parse_item_cb.
Proof.
  destruct (@asos_link_callbacks_raise ExampleAsosEnv.instance) as (Hp & Ha & Hi).
  assert (Hs : issued (@spider ExampleAsosEnv.instance)
                 (Request.make "http://us.asos.com/" parse_cb empty_meta))
    by (apply issued_start, list_elem_of_here).
  split; [apply Hp; discriminate|]. split; [apply Ha; discriminate|].
  split; [exact Hs | exact (proj2 (Hi _ Hs))].
Defined.

End AsosFacts.

(** ** The records that reach the exporter *)

Section RoutedFacts.
Import AsosSpider NordstromSpider.

Lemma parse_no_item `{Urllib} (response : Response.t) (item : Item) :
  OutItem item ∉ yielded (parse response).
Proof.
  rewrite parse_yields. cbn [yielded fst].
  intros (x & E & _)%list_elem_of_fmap. discriminate E.
Qed.

Lemma parse_article_no_item `{Urllib} (response : Response.t) (item : Item) :
  OutItem item ∉ yielded (parse_article response).
Proof.
  destruct (decide (indicators response = [])) as [Hi|Hi].
  { rewrite parse_article_not_grid by exact Hi. intros Hin. inversion Hin. }
  destruct (decide (tiles response = [])) as [Ht|Ht].
  { rewrite parse_article_exhausted by assumption. intros Hin. inversion Hin. }
  rewrite parse_article_next by assumption.
  destruct (meta_page (Response.meta response)); cbn [yielded fst].
  - intros [Hin|Hin]%elem_of_app.
    + apply list_elem_of_fmap in Hin as (x & E & _). discriminate E.
    + apply list_elem_of_singleton in Hin. discriminate Hin.
  - intros (x & E & _)%list_elem_of_fmap. discriminate E.
Qed.

Lemma asos_routes_nothing `{AsosEnv} (item : Item) : ¬ routed AsosSpider.spider item.
Proof.
  intros [req resp it Hreq _ Hin].
  rewrite (issued_only_parse req Hreq) in Hin. cbn [dispatch AsosSpider.spider] in Hin.
  rewrite (proj1 (parse_yields_nothing resp)) in Hin. inversion Hin.
Qed.

(** C9.  Every record a spider hands to the pipeline, and so to the
    exporter, has the field [product_url], holding a non-empty string: for
    the Nordstrom spider it is the URL of the product page, and the asos
    spider hands over no record at all.  (No test rejects a record without
    the field; none is ever assembled, since the URL of a response is never
    empty.) *)
Theorem routed_record_has_product_url `{Urllib} `{AsosEnv} (item : Item) :
  routed NordstromSpider.spider item ∨ routed AsosSpider.spider item →
  ∃ u : string, u ≠ "" ∧ Dict.get "product_url" item = Some (FStr u).
Proof.
  intros [Hr | Hr]; [|destruct (asos_routes_nothing item Hr)].
  destruct Hr as [req resp it Hreq [_ Hurl] Hin].
  exists (Response.url resp). split; [exact Hurl|].
  cbn [dispatch spider] in Hin. destruct (Request.callback req).
  - exfalso. exact (parse_no_item resp it Hin).
  - exfalso. exact (parse_article_no_item resp it Hin).
  - apply parse_item_product_url; assumption.
Qed.

Lemma routed_record_has_product_url_witness :
  routed (@spider ExampleUrllib.instance) ExampleRun.boot_item
  ∧ ∃ u : string, u ≠ "" ∧ Dict.get "product_url" ExampleRun.boot_item = Some (FStr u).
Proof.
  assert (Hr : routed (@spider ExampleUrllib.instance) ExampleRun.boot_item).
  { apply (routed_item _ Example.boot_request Example.boot_page).
    - apply (issued_follow _ Example.first_request
               (Example.grid_page Example.first_request)).
      + apply (issued_follow _
                 (Request.make "http://shop.nordstrom.com/?origin=tab-logo" parse_cb empty_meta)
                 Example.start_page).
        * apply issued_start. apply list_elem_of_here.
        * split; [reflexivity | discriminate].
        * vm_compute. apply list_elem_of_here.
      + split; [reflexivity | discriminate].
      + vm_compute. apply list_elem_of_here.
    - split; [reflexivity | discriminate].
    - vm_compute. apply list_elem_of_here. }
  split; [exact Hr|].
  exact (@routed_record_has_product_url ExampleUrllib.instance ExampleAsosEnv.instance
           ExampleRun.boot_item (or_introl Hr)).
Defined.

End RoutedFacts.

(** * Further properties *)

(** ** The record of a product page *)

Section RecordFacts.
Context `{Urllib}.
Import NordstromSpider.

Lemma lift_ok_bind {A B} (a : A) (f : A → gen B) : (lift (Ok a) ≫= f) = f a.
Proof. unfold lift, mbind, gen_bind. destruct (f a). reflexivity. Qed.

Lemma add_value_declared (fields : list (string * processor))
  (loader : ItemLoader.t) (f : string) (vs : list string) :
  Dict.get f fields ≠ None →
  ItemLoader.add_value fields loader f vs = Ok (stored loader f vs).
Proof.
  unfold ItemLoader.add_value, stored. intros Hf.
  destruct (Dict.get f fields); [|congruence]. destruct vs; reflexivity.
Qed.

(** [parse_item] in one piece: the loader never refuses a field, and the
    record is what [load_item] makes of the loader. *)
Lemma parse_item_unfold (response : Response.t) :
  parse_item response =
    match meta_article_type (Response.meta response) with
    | None => ([], Raise KeyError)
    | Some article_type =>
        match ItemLoader.load_item (NordstromItem url_query_cleaner)
                (loaded response article_type) with
        | Ok item => ([OutItem item], Ok tt)
        | Raise e => ([], Raise e)
        end
    end.
Proof.
  unfold parse_item, meta_getitem, ItemLoader.add_css.
  destruct (meta_article_type (Response.meta response)) as [article_type|];
    [|reflexivity].
  rewrite lift_ok_bind.
  repeat (rewrite add_value_declared by (cbn; discriminate); rewrite lift_ok_bind).
  unfold loaded, collected. cbn [foldl fst snd].
  destruct (ItemLoader.load_item _ _); reflexivity.
Qed.

Lemma get_None_keys {V} (k : string) (d : list (string * V)) :
  k ∉ map fst d → Dict.get k d = None.
Proof.
  induction d as [|[k0 v0] d IH]; [reflexivity|]. cbn [map fst Dict.get].
  intros Hk. apply not_elem_of_cons in Hk as [Hne Hk].
  rewrite decide_False by exact Hne. apply IH. exact Hk.
Qed.

Lemma get_Some_elem {V} (k : string) (v : V) (d : list (string * V)) :
  Dict.get k d = Some v → (k, v) ∈ d.
Proof.
  induction d as [|[k0 v0] d IH]; [discriminate|]. cbn [Dict.get].
  destruct (decide (k = k0)) as [->|Hne].
  - intros [= ->]. apply list_elem_of_here.
  - intros Hg. apply elem_of_cons. right. apply IH. exact Hg.
Qed.

Lemma elem_get_NoDup {V} (k : string) (v : V) (d : list (string * V)) :
  NoDup (map fst d) → (k, v) ∈ d → Dict.get k d = Some v.
Proof.
  induction d as [|[k0 v0] d IH]; intros Hnd Hin; [inversion Hin|].
  cbn [map fst] in Hnd. apply NoDup_cons in Hnd as [Hk0 Hnd]. cbn [Dict.get].
  apply elem_of_cons in Hin as [[= -> ->]|Hin].
  - rewrite decide_True by reflexivity. reflexivity.
  - destruct (decide (k = k0)) as [->|Hne]; [|apply IH; assumption].
    exfalso. apply Hk0. apply list_elem_of_fmap. exists (k0, v). split; [reflexivity | exact Hin].
Qed.

Lemma setitem_keys_NoDup {V} (k : string) (v : V) (d : list (string * V)) :
  NoDup (map fst d) → NoDup (map fst (Dict.setitem k v d)).
Proof.
  induction d as [|[k0 v0] d IH]; cbn [Dict.setitem map fst]; intros Hnd.
  - apply NoDup_singleton.
  - apply NoDup_cons in Hnd as [Hk0 Hnd].
    destruct (decide (k = k0)) as [->|Hne]; cbn [map fst].
    + apply NoDup_cons. split; assumption.
    + apply NoDup_cons. split; [|apply IH; exact Hnd].
      intros ([k1 v1] & E & Hin)%list_elem_of_fmap. cbn [fst] in E. subst k1.
      apply elem_of_setitem in Hin as [[E _]|Hin]; [congruence|].
      apply Hk0. apply list_elem_of_fmap. exists (k0, v1). split; [reflexivity | exact Hin].
Qed.

Lemma stored_keys_NoDup (loader : ItemLoader.t) (f : string) (vs : list string) :
  NoDup (map fst loader) → NoDup (map fst (stored loader f vs)).
Proof. unfold stored. destruct vs; [trivial | apply setitem_keys_NoDup]. Qed.

Lemma foldl_stored_NoDup (pairs : list (string * list string)) :
  ∀ acc : ItemLoader.t,
    NoDup (map fst acc) →
    NoDup (map fst (foldl (fun loader kv => stored loader kv.1 kv.2) acc pairs)).
Proof.
  induction pairs as [|[f vs] pairs IH]; intros acc Hnd; [exact Hnd|].
  cbn [foldl fst snd]. apply IH, stored_keys_NoDup, Hnd.
Qed.

Lemma get_stored (k f : string) (vs : list string) (loader : ItemLoader.t) :
  Dict.get k (stored loader f vs) =
    if decide (f = k)
    then match vs with
         | [] => Dict.get k loader
         | _ => Some (default [] (Dict.get k loader) ++ vs)
         end
    else Dict.get k loader.
Proof.
  unfold stored. destruct (decide (f = k)) as [->|Hne].
  - destruct vs; [reflexivity | apply get_setitem_eq].
  - destruct vs; [reflexivity | apply get_setitem_ne; exact Hne].
Qed.

(** What the loader holds for a field after calls for distinct fields. *)
Lemma get_foldl_stored (k : string) (pairs : list (string * list string)) :
  NoDup (map fst pairs) →
  ∀ acc : ItemLoader.t,
    Dict.get k (foldl (fun loader kv => stored loader kv.1 kv.2) acc pairs) =
      match Dict.get k pairs with
      | Some (v :: vs) => Some (default [] (Dict.get k acc) ++ v :: vs)
      | _ => Dict.get k acc
      end.
Proof.
  induction pairs as [|[f vs] pairs IH]; intros Hnd acc; [reflexivity|].
  cbn [map fst] in Hnd. apply NoDup_cons in Hnd as [Hf Hnd].
  cbn [foldl fst snd Dict.get]. rewrite (IH Hnd), get_stored.
  destruct (decide (k = f)) as [->|Hne].
  - rewrite (get_None_keys f pairs Hf), decide_True by reflexivity.
    destruct vs; reflexivity.
  - rewrite decide_False by congruence. reflexivity.
Qed.

Lemma collected_NoDup (response : Response.t) (article_type : list string) :
  NoDup (map fst (collected response article_type)).
Proof. cbn [collected map fst]. apply (bool_decide_unpack _). vm_compute. exact I. Qed.

Lemma loaded_NoDup (response : Response.t) (article_type : list string) :
  NoDup (map fst (loaded response article_type)).
Proof. apply foldl_stored_NoDup. apply NoDup_nil_2. Qed.

Lemma get_loaded (k : string) (response : Response.t) (article_type : list string) :
  Dict.get k (loaded response article_type) =
    match Dict.get k (collected response article_type) with
    | Some (v :: vs) => Some (v :: vs)
    | _ => None
    end.
Proof.
  unfold loaded. rewrite get_foldl_stored by apply collected_NoDup.
  destruct (Dict.get k _) as [[|v vs]|]; reflexivity.
Qed.

(** The value of a field of the record, from the values the loader holds:
    the value of the field's output processor, for a field with values. *)
Lemma get_load_fields (fields : list (string * processor)) (k : string)
  (values : ItemLoader.t) :
  ∀ acc item : Item,
    NoDup (map fst values) →
    (∀ f, f ∈ map fst values → Dict.get f acc = None) →
    ItemLoader.load_fields fields values acc = Ok item →
    Dict.get k item =
      match Dict.get k values with
      | Some vs =>
          match ItemLoader.get_output_value fields k vs with
          | Ok v => v
          | Raise _ => None
          end
      | None => Dict.get k acc
      end.
Proof.
  induction values as [|[f vs] values IH]; intros acc item Hnd Hfresh Hload.
  - injection Hload as <-. reflexivity.
  - cbn [map fst] in Hnd. apply NoDup_cons in Hnd as [Hf Hnd].
    cbn [ItemLoader.load_fields] in Hload.
    destruct (ItemLoader.get_output_value fields f vs) as [value|e] eqn:Hout;
      [|discriminate Hload].
    cbn [mbind result_bind] in Hload.
    assert (Hfresh' : ∀ f', f' ∈ map fst values →
              Dict.get f' (match value with
                           | Some v => Dict.setitem f v acc
                           | None => acc
                           end) = None).
    { intros f' Hf'.
      assert (f ≠ f') by (intros ->; exact (Hf Hf')).
      destruct value; [rewrite get_setitem_ne by assumption|];
        apply Hfresh, elem_of_cons; right; exact Hf'. }
    rewrite (IH _ _ Hnd Hfresh' Hload).
    cbn [Dict.get]. destruct (decide (k = f)) as [->|Hne].
    + rewrite (get_None_keys f values Hf), Hout.
      destruct value; [apply get_setitem_eq|].
      apply Hfresh. apply list_elem_of_here.
    + destruct (Dict.get k values); [reflexivity|].
      destruct value; [apply get_setitem_ne; congruence | reflexivity].
Qed.

Lemma load_fields_succeeds (fields : list (string * processor)) (values : ItemLoader.t) :
  (∀ f vs, (f, vs) ∈ values → ∃ v, ItemLoader.get_output_value fields f vs = Ok v) →
  ∀ acc : Item, ∃ item : Item, ItemLoader.load_fields fields values acc = Ok item.
Proof.
  induction values as [|[f vs] values IH]; intros Hall acc.
  - exists acc. reflexivity.
  - destruct (Hall f vs) as [v Hv]; [apply list_elem_of_here|].
    cbn [ItemLoader.load_fields]. rewrite Hv. cbn [mbind result_bind].
    apply IH. intros f' vs' Hin. apply Hall, elem_of_cons. right. exact Hin.
Qed.

Lemma load_fields_raises (fields : list (string * processor)) (values : ItemLoader.t) :
  (∀ f vs, (f, vs) ∈ values →
     ItemLoader.get_output_value fields f vs = Raise ValueError
     ∨ ∃ v, ItemLoader.get_output_value fields f vs = Ok v) →
  (∃ f vs, (f, vs) ∈ values ∧ ItemLoader.get_output_value fields f vs = Raise ValueError) →
  ∀ acc : Item, ItemLoader.load_fields fields values acc = Raise ValueError.
Proof.
  induction values as [|[f vs] values IH]; intros Hall (f0 & vs0 & Hin & Hraise) acc.
  - inversion Hin.
  - cbn [ItemLoader.load_fields].
    destruct (Hall f vs) as [Hr|[v Hv]]; [apply list_elem_of_here | rewrite Hr; reflexivity |].
    rewrite Hv. cbn [mbind result_bind]. apply IH.
    + intros f' vs' Hin'. apply Hall, elem_of_cons. right. exact Hin'.
    + apply elem_of_cons in Hin as [[= -> ->]|Hin]; [congruence|].
      exists f0, vs0. split; assumption.
Qed.

Lemma output_article_type (cleaner : string → string) (vs : list string) :
  ItemLoader.get_output_value (NordstromItem cleaner) "article_type" vs =
    match RemoveSaleHome.__call__ vs with
    | Ok l => Ok (Some (FList l))
    | Raise _ => Raise ValueError
    end.
Proof.
  unfold ItemLoader.get_output_value.
  change (Dict.get "article_type" (NordstromItem cleaner))
    with (Some (fun values : list string =>
                  Some ∘ FList <$> RemoveSaleHome.__call__ values) : option processor).
  cbv beta iota. destruct (RemoveSaleHome.__call__ vs); reflexivity.
Qed.

Lemma output_take_first (cleaner : string → string) (f : string) (vs : list string) :
  f ∈ ["product_name"; "product_url"; "brand_name"] →
  ItemLoader.get_output_value (NordstromItem cleaner) f vs = Ok (FStr <$> TakeFirst vs).
Proof.
  intros Hf. repeat (apply elem_of_cons in Hf as [->|Hf]; [reflexivity|]).
  inversion Hf.
Qed.

Lemma output_price (cleaner : string → string) (vs : list string) :
  ItemLoader.get_output_value (NordstromItem cleaner) "price" vs
  = Ok (Some (FList (map Py.slice_from_1 vs))).
Proof.
  rewrite <- (MapCompose_one Py.slice_from_1 vs). reflexivity.
Qed.

Lemma output_image_urls (cleaner : string → string) (vs : list string) :
  ItemLoader.get_output_value (NordstromItem cleaner) "image_urls" vs
  = Ok (Some (FList (map cleaner vs))).
Proof.
  rewrite <- (MapCompose_one cleaner vs). reflexivity.
Qed.

Lemma output_identity (cleaner : string → string) (f : string) (vs : list string) :
  f ∈ ["fit"; "width"; "colors"; "size_info"; "details_and_care_info";
       "details_and_care_list"; "images"] →
  ItemLoader.get_output_value (NordstromItem cleaner) f vs = Ok (Some (FList vs)).
Proof.
  intros Hf. repeat (apply elem_of_cons in Hf as [->|Hf]; [reflexivity|]).
  inversion Hf.
Qed.

Lemma loaded_entry (response : Response.t) (article_type : list string)
  (f : string) (vs : list string) :
  (f, vs) ∈ loaded response article_type →
  vs ≠ [] ∧ Dict.get f (collected response article_type) = Some vs.
Proof.
  intros Hin. apply (elem_get_NoDup _ _ _ (loaded_NoDup _ _)) in Hin.
  rewrite get_loaded in Hin.
  destruct (Dict.get f (collected response article_type)) as [[|v l]|];
    [discriminate.. | | discriminate].
  injection Hin as <-. split; [discriminate | reflexivity].
Qed.

(** Every output processor but the one of [article_type] returns. *)
Lemma collected_output (response : Response.t) (article_type : list string)
  (f : string) (vs : list string) :
  Dict.get f (collected response article_type) = Some vs →
  (f = "article_type" ∧ vs = article_type)
  ∨ (f ≠ "article_type"
     ∧ ∃ v, ItemLoader.get_output_value (NordstromItem url_query_cleaner) f vs = Ok v).
Proof.
  unfold collected. cbn [Dict.get]. intros Hget.
  destruct (decide (f = "article_type")) as [->|Hne];
    [left; injection Hget as <-; split; reflexivity|].
  right. split; [exact Hne|]. clear Hne.
  destruct (decide (f = "product_name")) as [->|_];
    [rewrite output_take_first by in_list; eexists; reflexivity|].
  destruct (decide (f = "product_url")) as [->|_];
    [rewrite output_take_first by in_list; eexists; reflexivity|].
  destruct (decide (f = "brand_name")) as [->|_];
    [rewrite output_take_first by in_list; eexists; reflexivity|].
  destruct (decide (f = "price")) as [->|_];
    [rewrite output_price; eexists; reflexivity|].
  destruct (decide (f = "fit")) as [->|_];
    [rewrite output_identity by in_list; eexists; reflexivity|].
  destruct (decide (f = "width")) as [->|_];
    [rewrite output_identity by in_list; eexists; reflexivity|].
  destruct (decide (f = "colors")) as [->|_];
    [rewrite output_identity by in_list; eexists; reflexivity|].
  destruct (decide (f = "size_info")) as [->|_];
    [rewrite output_identity by in_list; eexists; reflexivity|].
  destruct (decide (f = "details_and_care_info")) as [->|_];
    [rewrite output_identity by in_list; eexists; reflexivity|].
  destruct (decide (f = "details_and_care_list")) as [->|_];
    [rewrite output_identity by in_list; eexists; reflexivity|].
  destruct (decide (f = "image_urls")) as [->|_];
    [rewrite output_image_urls; eexists; reflexivity|].
  destruct (decide (f = "images")) as [->|_];
    [rewrite output_identity by in_list; eexists; reflexivity|].
  discriminate Hget.
Qed.

Lemma parse_item_loads (response : Response.t) (article_type : list string) :
  meta_article_type (Response.meta response) = Some article_type →
  if decide (length article_type = 1%nat)
  then ItemLoader.load_item (NordstromItem url_query_cleaner)
         (loaded response article_type) = Raise ValueError
  else ∃ item : Item,
         ItemLoader.load_item (NordstromItem url_query_cleaner)
           (loaded response article_type) = Ok item.
Proof.
  intros _. unfold ItemLoader.load_item. destruct (decide _) as [Hone|Hmore].
  - destruct article_type as [|x [|y l]]; try discriminate Hone.
    apply load_fields_raises.
    + intros f vs [_ Hget]%loaded_entry.
      destruct (collected_output _ _ _ _ Hget) as [[-> ->]|[_ Hok]]; [left | right; exact Hok].
      rewrite output_article_type, call_short by (cbn; lia). reflexivity.
    + exists "article_type", [x]. split.
      * apply get_Some_elem. rewrite get_loaded. reflexivity.
      * rewrite output_article_type, call_short by (cbn; lia). reflexivity.
  - apply load_fields_succeeds.
    intros f vs [Hne Hget]%loaded_entry.
    destruct (collected_output _ _ _ _ Hget) as [[-> ->]|[_ Hok]]; [|exact Hok].
    destruct article_type as [|a [|b rest]]; [congruence | cbn in Hmore; congruence |].
    rewrite output_article_type, call_two_or_more. eexists. reflexivity.
Qed.

Lemma record_field (response : Response.t) (item : Item) (k : string) :
  OutItem item ∈ yielded (parse_item response) →
  ∃ article_type : list string,
    meta_article_type (Response.meta response) = Some article_type
    ∧ parse_item response = ([OutItem item], Ok tt)
    ∧ Dict.get k item =
        match Dict.get k (collected response article_type) with
        | Some (v :: vs) =>
            match ItemLoader.get_output_value (NordstromItem url_query_cleaner) k (v :: vs) with
            | Ok o => o
            | Raise _ => None
            end
        | _ => None
        end.
Proof.
  rewrite parse_item_unfold.
  destruct (meta_article_type (Response.meta response)) as [article_type|];
    [|intros Hin; inversion Hin].
  destruct (ItemLoader.load_item _ _) as [loaded_item|e] eqn:Hload;
    [|intros Hin; inversion Hin].
  intros [= ->]%list_elem_of_singleton.
  exists article_type. split; [reflexivity|]. split; [reflexivity|].
  unfold ItemLoader.load_item in Hload.
  rewrite (get_load_fields _ k _ [] loaded_item (loaded_NoDup _ _) (fun _ _ => eq_refl) Hload).
  rewrite get_loaded.
  destruct (Dict.get k (collected response article_type)) as [[|v vs]|]; reflexivity.
Qed.

Lemma parse_item_by_labels (response : Response.t) (article_type : list string) :
  meta_article_type (Response.meta response) = Some article_type →
  if decide (length article_type = 1%nat)
  then parse_item response = ([], Raise ValueError)
  else ∃ item : Item, parse_item response = ([OutItem item], Ok tt).
Proof.
  intros Hmeta. pose proof (parse_item_loads response article_type Hmeta) as Hload.
  rewrite parse_item_unfold, Hmeta. destruct (decide _).
  - rewrite Hload. reflexivity.
  - destruct Hload as [item ->]. exists item. reflexivity.
Qed.

(** X1.  [parse_item] of the Nordstrom spider, on a response whose meta
    holds the category path: with exactly one label the cleanup fails and
    the callback ends in [ValueError] without a record; with any other
    number of labels it yields exactly one record and ends normally. *)
Theorem parse_item_outcome (response : Response.t) (article_type : list string) :
  meta_article_type (Response.meta response) = Some article_type →
  if decide (length article_type = 1%nat)
  then parse_item response = ([], Raise ValueError)
  else ∃ item : Item, parse_item response = ([OutItem item], Ok tt).
Proof. exact (parse_item_by_labels response article_type). Qed.

(** X2.  In a record of the Nordstrom spider, [product_name] and
    [brand_name] are the first non-empty match of their locators and
    [product_url] is the URL of the page; a field without such a value is
    absent from the record. *)
Theorem record_take_first_fields (response : Response.t) (item : Item) :
  OutItem item ∈ yielded (parse_item response) →
  Dict.get "product_name" item
    = FStr <$> TakeFirst (Response.css response "section[class=np-product-title] h1::text")
  ∧ Dict.get "brand_name" item
    = FStr <$> TakeFirst (Response.css response "section[class=brand-title] h2 a span::text")
  ∧ Dict.get "product_url" item = FStr <$> TakeFirst [Response.url response].
Proof.
  intros Hin. split; [|split].
  - destruct (record_field response item "product_name" Hin) as (at_ & _ & _ & ->).
    change (Dict.get "product_name" (collected response at_))
      with (Some (Response.css response "section[class=np-product-title] h1::text")).
    destruct (Response.css response _); [reflexivity|]. cbv beta iota.
    rewrite output_take_first by in_list. reflexivity.
  - destruct (record_field response item "brand_name" Hin) as (at_ & _ & _ & ->).
    change (Dict.get "brand_name" (collected response at_))
      with (Some (Response.css response "section[class=brand-title] h2 a span::text")).
    destruct (Response.css response _); [reflexivity|]. cbv beta iota.
    rewrite output_take_first by in_list. reflexivity.
  - destruct (record_field response item "product_url" Hin) as (at_ & _ & _ & ->).
    change (Dict.get "product_url" (collected response at_))
      with (Some [Response.url response]). cbv beta iota.
    rewrite output_take_first by in_list. reflexivity.
Qed.

Lemma record_list_field (response : Response.t) (item : Item) (k locator : string)
  (f : list string → field_value) :
  OutItem item ∈ yielded (parse_item response) →
  (∀ article_type,
     Dict.get k (collected response article_type) = Some (Response.css response locator)) →
  (∀ vs, ItemLoader.get_output_value (NordstromItem url_query_cleaner) k vs
         = Ok (Some (f vs))) →
  Dict.get k item = some_values f (Response.css response locator).
Proof.
  intros Hin Hget Hout.
  destruct (record_field response item k Hin) as (at_ & _ & _ & ->).
  rewrite Hget. destruct (Response.css response locator); [reflexivity|].
  rewrite Hout. reflexivity.
Qed.

(** X3.  In a record of the Nordstrom spider, [price] holds every match of
    its locator without its first character, [image_urls] every match
    cleaned of its query, and [fit], [width], [colors], [size_info],
    [details_and_care_info] and [details_and_care_list] hold the matches of
    their locators as they are, all in extraction order; a field whose
    locator matches nothing is absent, and [images] is never set. *)
Theorem record_list_fields (response : Response.t) (item : Item) :
  OutItem item ∈ yielded (parse_item response) →
  Dict.get "price" item
    = some_values (fun vs => FList (map Py.slice_from_1 vs))
        (Response.css response "div[class=current-price]::text")
  ∧ Dict.get "image_urls" item
    = some_values (fun vs => FList (map url_query_cleaner vs))
        (Response.css response "li.image-thumbnail img::attr(src)")
  ∧ Dict.get "fit" item
    = some_values FList (Response.css response
        "section.size-filter div[class=drop-down-options] div[class=option-main-text]::text")
  ∧ Dict.get "width" item
    = some_values FList (Response.css response
        "section.width-filter div[class=drop-down-options] div[class=option-main-text]::text")
  ∧ Dict.get "colors" item
    = some_values FList (Response.css response
        "section.color-filter div[class=color-option-text] div[class=option-main-text]::text")
  ∧ Dict.get "size_info" item
    = some_values FList (Response.css response
        "div.extended-product-details div.np-size-info span::text")
  ∧ Dict.get "details_and_care_info" item
    = some_values FList (Response.css response
        "div.product-details-and-care div.item-description-body p::text")
  ∧ Dict.get "details_and_care_list" item
    = some_values FList (Response.css response "div.product-details-and-care ul li::text")
  ∧ Dict.get "images" item = None.
Proof.
  intros Hin.
  repeat match goal with |- _ ∧ _ => split end;
    try (apply (record_list_field response item _ _ _ Hin);
         [ intros; reflexivity
         | intros; first [ apply output_price | apply output_image_urls
                         | apply output_identity; in_list ] ]).
  destruct (record_field response item "images" Hin) as (at_ & _ & _ & ->).
  reflexivity.
Qed.

Lemma article_type_field (response : Response.t) (item : Item)
  (a b : string) (rest : list string) :
  meta_article_type (Response.meta response) = Some (a :: b :: rest) →
  OutItem item ∈ yielded (parse_item response) →
  Dict.get "article_type" item
  = Some (FList ((if has_home a then [] else [a]) ++
                 (if has_sale b then [] else [b]) ++ rest)).
Proof.
  intros Hmeta Hin.
  destruct (record_field response item "article_type" Hin) as (at_ & Hat & _ & ->).
  rewrite Hmeta in Hat. injection Hat as <-.
  change (Dict.get "article_type" (collected response (a :: b :: rest)))
    with (Some (a :: b :: rest)).
  cbv beta iota. rewrite output_article_type, call_two_or_more. reflexivity.
Qed.

(** X4.  The [article_type] of a record of the Nordstrom spider is the
    category path of the request after the cleanup: of two or more labels,
    the first is dropped when it contains [home] and the second when it
    contains [sale], whatever their case, and the others are kept. *)
Theorem record_article_type (response : Response.t) (item : Item)
  (a b : string) (rest : list string) :
  meta_article_type (Response.meta response) = Some (a :: b :: rest) →
  OutItem item ∈ yielded (parse_item response) →
  Dict.get "article_type" item
  = Some (FList ((if has_home a then [] else [a]) ++
                 (if has_sale b then [] else [b]) ++ rest)).
Proof. exact (article_type_field response item a b rest). Qed.

(** X5.  A product whose category path is exactly a [home] label followed
    by a [sale] label gets a record with an empty [article_type], and the
    export of that record raises [TypeError]: it is written nowhere. *)
Theorem home_sale_record_not_exported (response : Response.t) (a b : string) :
  meta_article_type (Response.meta response) = Some [a; b] →
  has_home a = true → has_sale b = true →
  ∃ item : Item,
    parse_item response = ([OutItem item], Ok tt)
    ∧ Dict.get "article_type" item = Some (FList [])
    ∧ ∀ (spider_name : string) (fs : filesystem),
        JsonLinesItemSplitFileExporter.export_item spider_name item fs = Raise TypeError.
Proof.
  intros Hmeta Ha Hb.
  pose proof (parse_item_by_labels response [a; b] Hmeta) as Hout.
  rewrite decide_False in Hout by discriminate.
  destruct Hout as [item Hitem]. exists item.
  assert (Hin : OutItem item ∈ yielded (parse_item response))
    by (rewrite Hitem; apply list_elem_of_here).
  pose proof (article_type_field response item a b [] Hmeta Hin) as Hat.
  rewrite Ha, Hb in Hat. cbn [app] in Hat.
  split; [exact Hitem|]. split; [exact Hat|].
  intros spider_name fs.
  unfold JsonLinesItemSplitFileExporter.export_item,
    JsonLinesItemSplitFileExporter.article_type_of.
  rewrite Hat. reflexivity.
Qed.

End RecordFacts.

Section RecordExamples.
Import NordstromSpider.

Lemma parse_item_outcome_witness :
  meta_article_type (Response.meta Example.boot_page)
    = Some ["Home"; "Women"; "Shoes"; "Boots"]
  ∧ (∃ item : Item,
       @parse_item ExampleUrllib.instance Example.boot_page = ([OutItem item], Ok tt))
  ∧ meta_article_type (Response.meta ExamplePages.one_label_page) = Some ["Gift Cards"]
  ∧ @parse_item ExampleUrllib.instance ExamplePages.one_label_page
    = ([], Raise ValueError).
Proof.
  split; [reflexivity|]. split.
  - pose proof (@parse_item_outcome ExampleUrllib.instance Example.boot_page
                  ["Home"; "Women"; "Shoes"; "Boots"] eq_refl) as Hout.
    rewrite decide_False in Hout by discriminate. exact Hout.
  - split; [reflexivity|].
    pose proof (@parse_item_outcome ExampleUrllib.instance ExamplePages.one_label_page
                  ["Gift Cards"] eq_refl) as Hout.
    rewrite decide_True in Hout by reflexivity. exact Hout.
Defined.

Lemma boot_item_yielded :
  OutItem ExampleRun.boot_item
  ∈ yielded (@parse_item ExampleUrllib.instance Example.boot_page).
Proof. vm_compute. apply list_elem_of_here. Qed.

Lemma record_take_first_fields_witness :
  OutItem ExampleRun.boot_item
  ∈ yielded (@parse_item ExampleUrllib.instance Example.boot_page)
  ∧ Dict.get "product_name" ExampleRun.boot_item = Some (FStr "Chelsea Boot")
  ∧ Dict.get "brand_name" ExampleRun.boot_item = Some (FStr "ACME")
  ∧ Dict.get "product_url" ExampleRun.boot_item
    = Some (FStr "http://shop.nordstrom.com/s/chelsea-boot").
Proof.
  split; [exact boot_item_yielded|].
  exact (@record_take_first_fields ExampleUrllib.instance Example.boot_page
           ExampleRun.boot_item boot_item_yielded).
Defined.

Lemma record_list_fields_witness :
  OutItem ExampleRun.boot_item
  ∈ yielded (@parse_item ExampleUrllib.instance Example.boot_page)
  ∧ Dict.get "price" ExampleRun.boot_item = Some (FList ["99.95"])
  ∧ Dict.get "image_urls" ExampleRun.boot_item
    = Some (FList ["http://img.example/boot.jpg"])
  ∧ Dict.get "fit" ExampleRun.boot_item = None
  ∧ Dict.get "images" ExampleRun.boot_item = None.
Proof.
  split; [exact boot_item_yielded|].
  destruct (@record_list_fields ExampleUrllib.instance Example.boot_page
              ExampleRun.boot_item boot_item_yielded)
    as (Hprice & Himg & Hfit & _ & _ & _ & _ & _ & Himages).
  split; [exact Hprice|]. split; [exact Himg|]. split; [exact Hfit | exact Himages].
Defined.

Lemma record_article_type_witness :
  meta_article_type (Response.meta Example.boot_page)
    = Some ("Home" :: "Women" :: ["Shoes"; "Boots"])
  ∧ OutItem ExampleRun.boot_item
    ∈ yielded (@parse_item ExampleUrllib.instance Example.boot_page)
  ∧ Dict.get "article_type" ExampleRun.boot_item
    = Some (FList ["Women"; "Shoes"; "Boots"]).
Proof.
  split; [reflexivity|]. split; [exact boot_item_yielded|].
  exact (@record_article_type ExampleUrllib.instance Example.boot_page
           ExampleRun.boot_item "Home" "Women" ["Shoes"; "Boots"] eq_refl
           boot_item_yielded).
Defined.

Lemma home_sale_record_not_exported_witness :
  meta_article_type (Response.meta ExamplePages.home_sale_page) = Some ["Home"; "Sale"]
  ∧ has_home "Home" = true ∧ has_sale "Sale" = true
  ∧ ∃ item : Item,
      @parse_item ExampleUrllib.instance ExamplePages.home_sale_page
        = ([OutItem item], Ok tt)
      ∧ Dict.get "article_type" item = Some (FList [])
      ∧ JsonLinesItemSplitFileExporter.export_item "nordstrom" item (Filesystem ∅ ∅)
        = Raise TypeError.
Proof.
  split; [reflexivity|]. split; [reflexivity|]. split; [reflexivity|].
  destruct (@home_sale_record_not_exported ExampleUrllib.instance
              ExamplePages.home_sale_page "Home" "Sale" eq_refl eq_refl eq_refl)
    as (item & Hitem & Hat & Hexp).
  exists item. split; [exact Hitem|]. split; [exact Hat|]. apply Hexp.
Defined.

End RecordExamples.

(** ** How the exporter fails and what it leaves alone *)

Section ExportFacts.
Import JsonLinesItemSplitFileExporter.








End ExportFacts.

(** ** The text of an exported line *)

Section LineFacts.
Import JsonLinesItemSplitFileExporter.

Lemma printable_append (a b : string) :
  printable (a +:+ b) = printable a && printable b.
Proof.
  induction a as [|c a IH]; [reflexivity|].
  rewrite append_cons. cbn [printable]. rewrite IH, andb_assoc. reflexivity.
Qed.

Lemma escape_char_printable (c : ascii) : printable (Json.escape_char c) = true.
Proof. destruct c as [[] [] [] [] [] [] [] []]; vm_compute; reflexivity. Qed.

Lemma escape_printable (s : string) : printable (Json.escape s) = true.
Proof.
  induction s as [|c s IH]; [reflexivity|].
  cbn [Json.escape]. rewrite printable_append, escape_char_printable, IH. reflexivity.
Qed.

Lemma encode_str_printable (s : string) : printable (Json.encode_str s) = true.
Proof.
  unfold Json.encode_str.
  change (String Json.quote (Json.escape s +:+ String Json.quote ""))
    with (String Json.quote "" +:+ Json.escape s +:+ String Json.quote "").
  rewrite !printable_append, escape_printable. reflexivity.
Qed.

Lemma str_join_printable (sep : string) (parts : list string) :
  printable sep = true → Forall (fun x => printable x = true) parts →
  printable (Py.str_join sep parts) = true.
Proof.
  intros Hsep. induction 1 as [|x parts Hx Hparts IH]; [reflexivity|].
  destruct parts as [|y parts]; [exact Hx|].
  change (Py.str_join sep (x :: y :: parts))
    with (x +:+ sep +:+ Py.str_join sep (y :: parts)).
  rewrite !printable_append, Hx, Hsep, IH. reflexivity.
Qed.

Lemma encode_value_printable (v : field_value) : printable (Json.encode_value v) = true.
Proof.
  destruct v as [s|l]; [apply encode_str_printable|].
  unfold Json.encode_value. rewrite !printable_append.
  rewrite str_join_printable; [reflexivity | reflexivity |].
  apply Forall_forall. intros x (s & -> & _)%list_elem_of_fmap.
  apply encode_str_printable.
Qed.

(** X8.  Whatever characters the strings of a record hold, the line
    written for it is printable ASCII text followed by the line separator
    and nothing else: every other character is escaped. *)
Theorem exported_line_is_ascii (item : Item) :
  ∃ text : string,
    data_of item = text +:+ OsPath.linesep ∧ printable text = true.
Proof.
  exists (Json.encode item). split; [reflexivity|].
  unfold Json.encode. rewrite !printable_append.
  rewrite str_join_printable; [reflexivity | reflexivity |].
  apply Forall_forall. intros x ([k v] & -> & _)%list_elem_of_fmap.
  cbn [fst snd]. rewrite !printable_append.
  rewrite encode_str_printable, encode_value_printable. reflexivity.
Qed.

End LineFacts.

(** ** Different category paths, different files *)

Section InjectivityFacts.
Import JsonLinesItemSplitFileExporter.











(** Labels with a separator in them can collide. *)
Example colliding_paths :
  partition "acme" ["a/b"] = Ok ("scraped_data/acme", "scraped_data/acme/a/b.jl")
  ∧ partition "acme" ["a"; "b"] = Ok ("scraped_data/acme/a", "scraped_data/acme/a/b.jl").
Proof. split; reflexivity. Qed.


End InjectivityFacts.

(** ** A Nordstrom crawl *)

Section NordstromCrawlFacts.
Context `{Urllib}.
Import NordstromSpider.












End NordstromCrawlFacts.

Section NordstromCrawlExamples.
Import NordstromSpider.







End NordstromCrawlExamples.

(** ** The product callback of the asos spider *)

Section AsosItemFacts.
Context `{AsosEnv}.
Import AsosSpider.

Lemma lift_bind_outcome {A B} (r : result A) (f : A → gen B) (b : B) :
  outcome (lift r ≫= f) = Ok b → ∃ a, r = Ok a ∧ outcome (f a) = Ok b.
Proof.
  destruct r as [a|e]; cbn.
  - intros Hout. exists a. split; [reflexivity|]. destruct (f a). exact Hout.
  - discriminate.
Qed.

(** The reads of the product data cannot all succeed: [variants] is
    iterated with every element subscripted by a string, and is itself
    subscripted by a string. *)
Lemma variants_reads_clash (data_json : json) (variants size_list : list json)
  (colours : json) :
  PyJson.getitem_str data_json "variants" ≫= PyJson.iter = Ok variants →
  sizes_of variants [] = Ok size_list →
  PyJson.getitem_str data_json "variants"
    ≫= (fun v => PyJson.getitem_str v "colour") = Ok colours →
  False.
Proof.
  intros Evar Esizes Ecol.
  destruct (PyJson.getitem_str data_json "variants") as [v|e]; [|discriminate Evar].
  cbn [mbind result_bind] in Evar, Ecol.
  destruct v as [| | | |l|d]; try discriminate Ecol.
  destruct d as [|[k x] d]; [discriminate Ecol|].
  cbn in Evar. injection Evar as <-. discriminate Esizes.
Qed.

(** X12.  [parse_item] of the asos spider never yields a record.  On a
    page without the product data it returns at once; on a page with it,
    it ends with an exception, whatever the data: [variants] would have to
    be a list of dictionaries for the loop over the sizes and a dictionary
    with the key [colour] for the colours. *)
Theorem asos_parse_item_never_yields (response : Response.t) :
  yielded (parse_item response) = []
  ∧ match Response.xpath_re_first response full_product_script "view\('(\{.*\})'," with
    | None | Some EmptyString => outcome (parse_item response) = Ok tt
    | Some (String _ _) => ∃ e : exn, outcome (parse_item response) = Raise e
    end.
Proof.
  unfold parse_item.
  destruct (Response.xpath_re_first response full_product_script "view\('(\{.*\})',")
    as [[|c data]|]; [split; reflexivity | | split; reflexivity].
  split.
  - match goal with |- yielded ?g = [] => destruct (yielded g) as [|o outs] eqn:Hy end;
      [reflexivity|]. exfalso.
    assert (Hin : o ∈ o :: outs) by apply list_elem_of_here.
    rewrite <- Hy in Hin. clear Hy.
    apply lift_bind_yields in Hin as (data_json & _ & Hin).
    apply lift_bind_yields in Hin as (variants & Evar & Hin).
    apply lift_bind_yields in Hin as (size_list & Esizes & Hin).
    apply lift_bind_yields in Hin as (L1 & _ & Hin).
    apply lift_bind_yields in Hin as (L2 & _ & Hin).
    apply lift_bind_yields in Hin as (L3 & _ & Hin).
    apply lift_bind_yields in Hin as (L4 & _ & Hin).
    apply lift_bind_yields in Hin as (price & _ & Hin).
    apply lift_bind_yields in Hin as (L5 & _ & Hin).
    apply lift_bind_yields in Hin as (L6 & _ & Hin).
    apply lift_bind_yields in Hin as (colours & Ecol & Hin).
    exact (variants_reads_clash _ _ _ _ Evar Esizes Ecol).
  - match goal with |- ∃ e, outcome ?g = Raise e => destruct (outcome g) as [[]|e] eqn:Hout end;
      [|exists e; reflexivity]. exfalso.
    apply lift_bind_outcome in Hout as (data_json & _ & Hout).
    apply lift_bind_outcome in Hout as (variants & Evar & Hout).
    apply lift_bind_outcome in Hout as (size_list & Esizes & Hout).
    apply lift_bind_outcome in Hout as (L1 & _ & Hout).
    apply lift_bind_outcome in Hout as (L2 & _ & Hout).
    apply lift_bind_outcome in Hout as (L3 & _ & Hout).
    apply lift_bind_outcome in Hout as (L4 & _ & Hout).
    apply lift_bind_outcome in Hout as (price & _ & Hout).
    apply lift_bind_outcome in Hout as (L5 & _ & Hout).
    apply lift_bind_outcome in Hout as (L6 & _ & Hout).
    apply lift_bind_outcome in Hout as (colours & Ecol & Hout).
    exact (variants_reads_clash _ _ _ _ Evar Esizes Ecol).
Qed.

End AsosItemFacts.

(** ** The requests of a grid page, and the order of arrival *)

Section GridFacts.
Context `{Urllib}.
Import NordstromSpider.


End GridFacts.

Section GridExamples.
Import NordstromSpider.


End GridExamples.

Section ArrivalOrderFacts.



End ArrivalOrderFacts.
